(** * pg-mcp: the SQL validator, the retry policy and the query orchestrator

    A shallow embedding of

      - [src/pg-mcp/src/services/sql_validator.py]  (module [SqlValidator]),
      - [src/pg-mcp/src/resilience/retry.py]        (module [Retry]),
      - [src/pg-mcp/src/services/orchestrator.py]   (module [Orchestrator]),

    with the properties the specification states about them.

    Python values are modelled as follows.  A [str] is a [string] of ASCII
    text (case mapping outside ASCII is not modelled); an [int] is a [Z]; a
    [float] delay is an exact rational [Q]; a [set] of strings is a
    [gset string];
    a [dict] used only for lookup is a [gmap]; a [dict] whose key order is
    observed is an association list.  A call that may raise returns a
    [Result]. *)

From Stdlib Require Import ZArith QArith Qminmax Qpower String Ascii List Bool Lia.
From Stdlib Require Import DecimalString.
From stdpp Require Import base decidable option list strings gmap sorting.

Import ListNotations.
Set Warnings "-register-all,-clear-no-such-hyp".
Local Open Scope string_scope.
Local Open Scope Z_scope.

(** ** Python strings *)

Module PyStr.

Definition lower_ascii (c : ascii) : ascii :=
  let n := nat_of_ascii c in
  if ((65 <=? n) && (n <=? 90))%nat then ascii_of_nat (n + 32) else c.

Definition upper_ascii (c : ascii) : ascii :=
  let n := nat_of_ascii c in
  if ((97 <=? n) && (n <=? 122))%nat then ascii_of_nat (n - 32) else c.

Fixpoint map_string (f : ascii -> ascii) (s : string) : string :=
  match s with
  | EmptyString => EmptyString
  | String c s' => String (f c) (map_string f s')
  end.

(** [str.lower()] and [str.upper()] on ASCII text. *)
Definition lower : string -> string := map_string lower_ascii.
Definition upper : string -> string := map_string upper_ascii.

(** [str.isspace] on one character: tab to carriage return, the four
    separators 28..31, the space, and NEL and the no-break space of the
    Latin-1 range. *)
Definition isspace (c : ascii) : bool :=
  let n := nat_of_ascii c in
  (((9 <=? n) && (n <=? 13)) || ((28 <=? n) && (n <=? 32))
   || (n =? 133) || (n =? 160))%nat.

Fixpoint all_space (s : string) : bool :=
  match s with
  | EmptyString => true
  | String c s' => isspace c && all_space s'
  end.

(** [not sql or not sql.strip()]: the string is empty, or nothing is left
    once the white space is stripped. *)
Definition blank (s : string) : bool :=
  match s with
  | EmptyString => true
  | _ => all_space s
  end.

(** [str(n)] for an [int]. *)
Definition of_Z (z : Z) : string := NilZero.string_of_int (Z.to_int z).

Definition eqb (a b : string) : bool := bool_decide (a = b).

End PyStr.

(** ** Exceptions and results *)

(** The exception classes the three modules name.  [Exception] is the root;
    [OtherException] stands for any class declared elsewhere. *)
Inductive ExcClass : Type :=
| Exception
| PgMcpError
| SQLParseError
| SecurityViolationError
| DatabaseError
| LLMError
| SchemaLoadError
| ValidationError
| RetryExhaustedError
| ValueError
| RuntimeError
| OtherException (name : string).

#[global] Instance ExcClass_eq_dec : EqDecision ExcClass.
Proof. solve_decision. Defined.

(** Modelled from the spec: the [ErrorCode] enumeration of
    [pg_mcp/models/errors.py], which is not part of the sources, after the
    closed set of codes of the error taxonomy.  The orchestrator itself
    names [QUESTION_TOO_LONG], [INTERNAL_ERROR] and the literal
    [LOW_CONFIDENCE]. *)
Inductive ErrorCode : Type :=
| QUESTION_TOO_LONG
| DATABASE_NOT_FOUND
| SCHEMA_LOAD_ERROR
| LLM_ERROR
| SQL_PARSE_ERROR
| SECURITY_VIOLATION
| DATABASE_ERROR
| LOW_CONFIDENCE
| INTERNAL_ERROR.

#[global] Instance ErrorCode_eq_dec : EqDecision ErrorCode.
Proof. solve_decision. Defined.

(** A value of a [details] dictionary. *)
Inductive Detail : Type :=
| DStr (s : string)
| DInt (z : Z)
| DStrs (l : list string).

(** An exception object: its class, its message ([str(e)], and [e.message]
    of a [PgMcpError]), the [details] dictionary and the [code] of a
    [PgMcpError] (read on no other exception), the [attempts] and
    [last_error] attributes of a [RetryExhaustedError], and [__cause__]. *)
Inductive Exc : Type :=
| MkExc (cls : ExcClass) (message : string)
        (details : list (string * Detail)) (code : ErrorCode)
        (attempts : option Z) (last_error : option Exc) (cause : option Exc).

Definition exc_class (e : Exc) : ExcClass :=
  match e with MkExc c _ _ _ _ _ _ => c end.
Definition exc_message (e : Exc) : string :=
  match e with MkExc _ m _ _ _ _ _ => m end.
Definition exc_details (e : Exc) : list (string * Detail) :=
  match e with MkExc _ _ d _ _ _ _ => d end.
Definition exc_code (e : Exc) : ErrorCode :=
  match e with MkExc _ _ _ c _ _ _ => c end.
Definition exc_attempts (e : Exc) : option Z :=
  match e with MkExc _ _ _ _ a _ _ => a end.
Definition exc_last_error (e : Exc) : option Exc :=
  match e with MkExc _ _ _ _ _ l _ => l end.
Definition exc_cause (e : Exc) : option Exc :=
  match e with MkExc _ _ _ _ _ _ c => c end.

(** [type(e).__name__] *)
Definition exc_class_name (c : ExcClass) : string :=
  match c with
  | Exception => "Exception"
  | PgMcpError => "PgMcpError"
  | SQLParseError => "SQLParseError"
  | SecurityViolationError => "SecurityViolationError"
  | DatabaseError => "DatabaseError"
  | LLMError => "LLMError"
  | SchemaLoadError => "SchemaLoadError"
  | ValidationError => "ValidationError"
  | RetryExhaustedError => "RetryExhaustedError"
  | ValueError => "ValueError"
  | RuntimeError => "RuntimeError"
  | OtherException name => name
  end.

(** [raise X from e] sets [__cause__]. *)
Definition raise_from (x e : Exc) : Exc :=
  match x with
  | MkExc c m d k a l _ => MkExc c m d k a l (Some e)
  end.

(** Modelled from the spec: [pg_mcp/models/errors.py] is not part of the
    sources.  Every error class of that module derives from [PgMcpError]
    (the orchestrator tests [SecurityViolationError], [SQLParseError] and
    [ValidationError] inside its [except PgMcpError] handler and reads
    [e.code], [e.message] and [e.details] there). *)
Definition pg_mcp_class (c : ExcClass) : bool :=
  match c with
  | PgMcpError | SQLParseError | SecurityViolationError | DatabaseError
  | LLMError | SchemaLoadError | ValidationError => true
  | _ => false
  end.

(** [issubclass c d] for the classes above. *)
Definition issubclass (c d : ExcClass) : bool :=
  match d with
  | Exception => true
  | PgMcpError => pg_mcp_class c
  | _ => bool_decide (c = d)
  end.

(** [isinstance(e, classes)] for a tuple of classes, as in an [except]
    clause. *)
Definition isinstance (e : Exc) (classes : list ExcClass) : bool :=
  existsb (issubclass (exc_class e)) classes.

(** Modelled from the spec: the code each error class of
    [pg_mcp/models/errors.py] carries, after the error taxonomy: a
    [DatabaseError] is what a failed execution surfaces as, and its code is
    [DATABASE_ERROR]. *)
Definition class_code (c : ExcClass) : ErrorCode :=
  match c with
  | SQLParseError => SQL_PARSE_ERROR
  | SecurityViolationError => SECURITY_VIOLATION
  | DatabaseError => DATABASE_ERROR
  | LLMError => LLM_ERROR
  | SchemaLoadError => SCHEMA_LOAD_ERROR
  | _ => INTERNAL_ERROR
  end.

(** An error of [pg_mcp.models.errors] built from a message and details,
    as in [DatabaseError(message=..., details=...)]. *)
Definition pg_error (c : ExcClass) (message : string)
    (details : list (string * Detail)) : Exc :=
  MkExc c message details (class_code c) None None None.

(** The outcome of a call: a value, or a raised exception. *)
Inductive Result (A : Type) : Type :=
| Return (a : A)
| Raise (e : Exc).
Arguments Return {A} a.
Arguments Raise {A} e.

Definition raised {A} (r : Result A) : option Exc :=
  match r with Return _ => None | Raise e => Some e end.

(** ** The parsed tree (sqlglot's [Expression]) *)

(** The expression classes the validator distinguishes.  [FuncClass n] is
    any subclass of [exp.Func] ([Anonymous], [Count], ...); [OtherClass n]
    is any other class.  The classes the validator tests with [isinstance]
    have no subclasses among the nodes a query parses to, except [Func]. *)
Inductive ExpClass : Type :=
| Select | Union | Intersect | Except | With | Subquery
| Insert | Update | Delete | Drop | Create | Alter | Grant | Revoke
| SetStmt | Command | Use | Merge
| Table | Column | Identifier | Literal | Var | Star | Null
| FuncClass (name : string)
| OtherClass (name : string).

#[global] Instance ExpClass_eq_dec : EqDecision ExpClass.
Proof. solve_decision. Defined.

(** A value of a node's [args] dictionary. *)
Inductive Arg (E : Type) : Type :=
| AExp (e : E)
| AList (es : list E)
| AStr (s : string)
| ABool (b : bool).
Arguments AExp {E} e.
Arguments AList {E} es.
Arguments AStr {E} s.
Arguments ABool {E} b.

(** A node: its class and its [args], in insertion order.  A key whose
    value is [None] is left out. *)
Inductive Expression : Type :=
| Exp (cls : ExpClass) (args : list (string * Arg Expression)).

Module Sqlglot.

Definition cls_of (e : Expression) : ExpClass :=
  match e with Exp c _ => c end.

Definition args_of (e : Expression) : list (string * Arg Expression) :=
  match e with Exp _ a => a end.

(** [type(e).__name__] *)
Definition class_name (c : ExpClass) : string :=
  match c with
  | Select => "Select" | Union => "Union" | Intersect => "Intersect"
  | Except => "Except" | With => "With" | Subquery => "Subquery"
  | Insert => "Insert" | Update => "Update" | Delete => "Delete"
  | Drop => "Drop" | Create => "Create" | Alter => "Alter"
  | Grant => "Grant" | Revoke => "Revoke" | SetStmt => "Set"
  | Command => "Command" | Use => "Use" | Merge => "Merge"
  | Table => "Table" | Column => "Column" | Identifier => "Identifier"
  | Literal => "Literal" | Var => "Var" | Star => "Star" | Null => "Null"
  | FuncClass n => n
  | OtherClass n => n
  end.

(** [exp.Func], the base class of the function nodes. *)
Definition is_func (c : ExpClass) : bool :=
  match c with FuncClass _ => true | _ => false end.

(** [e.args.get(key)] *)
Fixpoint get {E} (args : list (string * Arg E)) (key : string) : option (Arg E) :=
  match args with
  | [] => None
  | (k, v) :: rest => if PyStr.eqb k key then Some v else get rest key
  end.

(** Python truth of [e.args.get(key)]: a node is true, a list or a string
    is true unless empty. *)
Definition truthy {E} (a : option (Arg E)) : bool :=
  match a with
  | None => false
  | Some (AExp _) => true
  | Some (AList es) => match es with [] => false | _ => true end
  | Some (AStr s) => match s with EmptyString => false | _ => true end
  | Some (ABool b) => b
  end.

(** [e.this] when it is a node. *)
Definition this (e : Expression) : option Expression :=
  match get (args_of e) "this" with
  | Some (AExp t) => Some t
  | _ => None
  end.

(** [Expression.text(key)]: a string argument is returned as it is, an
    [Identifier], [Literal] or [Var] gives its own [this], a [Star] is
    [*] and a [Null] is [NULL]; anything else is the empty string. *)
Definition text (e : Expression) (key : string) : string :=
  match get (args_of e) key with
  | Some (AStr s) => s
  | Some (AExp (Exp c a)) =>
      match c with
      | Identifier | Literal | Var =>
          match get a "this" with Some (AStr s) => s | _ => "" end
      | Star => "*"
      | Null => "NULL"
      | _ => ""
      end
  | _ => ""
  end.

(** [e.name]; [Table.name] is empty when the table is a function call. *)
Definition name (e : Expression) : string :=
  match cls_of e with
  | Table =>
      match this e with
      | Some t => if is_func (cls_of t) then "" else text t "this"
      | None => ""
      end
  | _ => text e "this"
  end.

(** [column.table] *)
Definition table (e : Expression) : string := text e "table".

(** Two level lists merged depth by depth. *)
Fixpoint zip_levels {A} (xs ys : list (list A)) : list (list A) :=
  match xs, ys with
  | [], _ => ys
  | _, [] => xs
  | x :: xs', y :: ys' => (x ++ y)%list :: zip_levels xs' ys'
  end.

(** The nodes of a tree by depth: level 0 is the root, level [d+1] the
    children of level [d], each in the order of [iter_expressions] (the
    [args] values in insertion order, a list value element by element). *)
Fixpoint levels (e : Expression) : list (list Expression) :=
  match e with
  | Exp _ args =>
      [e] ::
      (fix of_args (l : list (string * Arg Expression)) : list (list Expression) :=
         match l with
         | [] => []
         | (_, a) :: l' =>
             zip_levels
               match a with
               | AExp e' => levels e'
               | AList es =>
                   (fix of_list (es : list Expression) : list (list Expression) :=
                      match es with
                      | [] => []
                      | e' :: es' => zip_levels (levels e') (of_list es')
                      end) es
               | _ => []
               end
               (of_args l')
         end) args
  end.

(** [e.walk()]: breadth first, which is the order a FIFO queue yields. *)
Definition walk (e : Expression) : list Expression := concat (levels e).

(** [e.find_all(cls)] for a class without subclasses. *)
Definition find_all (c : ExpClass) (e : Expression) : list Expression :=
  List.filter (fun n => bool_decide (cls_of n = c)) (walk e).

(** [e.find_all(exp.Func)] *)
Definition find_all_func (e : Expression) : list Expression :=
  List.filter (fun n => is_func (cls_of n)) (walk e).

(** [iter_expressions]: the child nodes, in order. *)
Definition arg_nodes (a : Arg Expression) : list Expression :=
  match a with
  | AExp e => [e]
  | AList es => es
  | _ => []
  end.

Definition children (e : Expression) : list Expression :=
  flat_map (fun ka => arg_nodes ka.2) (args_of e).

Section Induction.

Variable P : Expression -> Prop.
Hypothesis step :
  forall c args,
    Forall (fun ka : string * Arg Expression => Forall P (arg_nodes ka.2)) args ->
    P (Exp c args).

(** Induction on a tree: a node has the property once its children do. *)
Fixpoint Expression_nested_ind (e : Expression) : P e :=
  match e with
  | Exp c args =>
      step c args
        ((fix of_args (l : list (string * Arg Expression))
            : Forall (fun ka : string * Arg Expression =>
                        Forall P (arg_nodes ka.2)) l :=
            match l with
            | [] => @List.Forall_nil _ _
            | ka :: l' =>
                @List.Forall_cons _ _ ka l'
                  (match ka.2 as a return Forall P (arg_nodes a) with
                   | AExp e' =>
                       @List.Forall_cons _ _ e' []
                         (Expression_nested_ind e') (@List.Forall_nil _ _)
                   | AList es =>
                       (fix of_list (es : list Expression) : Forall P es :=
                          match es with
                          | [] => @List.Forall_nil _ _
                          | e' :: es' =>
                              @List.Forall_cons _ _ e' es'
                                (Expression_nested_ind e') (of_list es')
                          end) es
                   | AStr _ => @List.Forall_nil _ _
                   | ABool _ => @List.Forall_nil _ _
                   end)
                  (of_args l')
            end) args)
  end.

End Induction.

End Sqlglot.

(** ** [sql_validator.py] *)

Module SqlValidator.
Import Sqlglot.

(** The fields of [SecurityConfig] the validator reads. *)
Record SecurityConfig : Type := {
  blocked_functions : list string;
  blocked_tables : list string;
  blocked_columns : gmap string (list string);
  allow_explain : bool;
  require_where_clause : list string;
  max_join_tables : Z
}.

(** The attributes of a [SQLValidator] instance ([self.allow_explain] is
    [self_allow_explain], and so on). *)
Record SQLValidator : Type := {
  self_blocked_table_patterns : list string;
  self_blocked_columns_map : gmap string (list string);
  self_blocked_columns_simple : gset string;
  self_allow_explain : bool;
  self_require_where_clause : gset string;
  self_max_join_tables : Z;
  self_blocked_functions : gset string
}.

Definition ALLOWED_STATEMENT_TYPES : list ExpClass :=
  [Select; Union; Intersect; Except].

(** Declared by the class and read by none of its methods. *)
Definition ALLOWED_TOP_LEVEL : list ExpClass :=
  [Select; Union; Intersect; Except; With; Subquery].

Definition FORBIDDEN_STATEMENT_TYPES : list ExpClass :=
  [Insert; Update; Delete; Drop; Create; Alter; Grant; Revoke;
   SetStmt; Command; Use; Merge].

Definition BUILTIN_DANGEROUS_FUNCTIONS : list string :=
  ["pg_sleep"; "pg_terminate_backend"; "pg_cancel_backend";
   "pg_reload_conf"; "pg_rotate_logfile"; "pg_read_file";
   "pg_read_binary_file"; "pg_ls_dir"; "pg_stat_file"; "lo_import";
   "lo_export"; "dblink"; "dblink_exec"; "dblink_connect"; "dblink_open";
   "pg_write_file"; "pg_execute_sql"; "copy_from"; "copy_to"].

(** [x or y] on lists: [y] when [x] is [None] or empty. *)
Definition list_or (x : option (list string)) (y : list string) : list string :=
  match x with
  | Some (a :: l) => a :: l
  | _ => y
  end.

(** [SQLValidator.__init__] *)
Definition init (config : SecurityConfig)
    (blocked_tables_arg blocked_columns_arg : option (list string))
    (allow_explain_arg : bool) : SQLValidator :=
  {| self_blocked_table_patterns :=
       map PyStr.lower (list_or blocked_tables_arg (blocked_tables config));
     self_blocked_columns_map := blocked_columns config;
     self_blocked_columns_simple :=
       list_to_set (map PyStr.lower (list_or blocked_columns_arg []));
     self_allow_explain :=
       if allow_explain_arg then allow_explain_arg else allow_explain config;
     self_require_where_clause :=
       list_to_set (map PyStr.lower (require_where_clause config));
     self_max_join_tables := max_join_tables config;
     self_blocked_functions :=
       list_to_set BUILTIN_DANGEROUS_FUNCTIONS
         ∪ list_to_set (map PyStr.lower (blocked_functions config)) |}.

(** [isinstance(e, classes)] on the classes of nodes, none of which has a
    subclass here. *)
Definition isinstance_exp (e : Expression) (classes : list ExpClass) : bool :=
  existsb (fun c => bool_decide (cls_of e = c)) classes.

(** A [for] loop whose body returns at the first message it finds. *)
Fixpoint first_error {A} (body : A -> option string) (l : list A) : option string :=
  match l with
  | [] => None
  | x :: l' =>
      match body x with
      | Some m => Some m
      | None => first_error body l'
      end
  end.

Definition _check_statement_type (statement : Expression) : option string :=
  match
    first_error
      (fun forbidden_type =>
         if isinstance_exp statement [forbidden_type]
         then Some (PyStr.upper (class_name forbidden_type)
                    ++ " statements are not allowed. Only SELECT queries are permitted.")
         else None)
      FORBIDDEN_STATEMENT_TYPES
  with
  | Some m => Some m
  | None =>
      if negb (isinstance_exp statement ALLOWED_STATEMENT_TYPES)
      then Some ("Statement type " ++ class_name (cls_of statement)
                 ++ " is not allowed. Only SELECT queries are permitted.")
      else None
  end.

(** The distinct lower-cased names of the tables found under a node:
    the [set] both per-SELECT checks build. *)
Definition tables_under (select_stmt : Expression) : gset string :=
  list_to_set
    (map (fun t => PyStr.lower (name t))
       (List.filter (fun t => negb (PyStr.eqb (name t) ""))
          (find_all Table select_stmt))).

Section Methods.

(** [fnmatch.fnmatch] of the standard library. *)
Variable fnmatch : string -> string -> bool.

Variable self : SQLValidator.

Definition _check_dangerous_functions (statement : Expression) : option string :=
  first_error
    (fun func =>
       let func_name := PyStr.lower (name func) in
       if bool_decide (func_name ∈ self_blocked_functions self)
       then Some ("Function '" ++ func_name ++ "' is blocked for security reasons")
       else None)
    (find_all_func statement).

Definition _check_blocked_tables (statement : Expression) : option string :=
  match self_blocked_table_patterns self with
  | [] => None
  | patterns =>
      first_error
        (fun table =>
           let table_name := PyStr.lower (name table) in
           first_error
             (fun pattern =>
                if fnmatch table_name pattern
                then Some ("Access to table '" ++ table_name
                           ++ "' is not allowed (matches pattern '"
                           ++ pattern ++ "')")
                else None)
             patterns)
        (find_all Table statement)
  end.

Definition _check_blocked_columns (statement : Expression) : option string :=
  if bool_decide (self_blocked_columns_map self = ∅)
     && bool_decide (self_blocked_columns_simple self = ∅)
  then None
  else
    first_error
      (fun column =>
         let column_name := PyStr.lower (name column) in
         if bool_decide (column_name ∈ self_blocked_columns_simple self)
         then Some ("Access to column '" ++ column_name ++ "' is not allowed")
         else
           if PyStr.eqb (table column) "" then None
           else
             let table_name := PyStr.lower (table column) in
             match self_blocked_columns_map self !! table_name with
             | Some cols =>
                 let blocked_cols : gset string :=
                   list_to_set (map PyStr.lower cols) in
                 if bool_decide (column_name ∈ blocked_cols)
                 then Some ("Access to column '" ++ table_name ++ "."
                            ++ column_name ++ "' is not allowed")
                 else None
             | None => None
             end)
      (find_all Column statement).

(** The [this] of a [Subquery] is a node, or missing. *)
Definition _check_subquery_safety (statement : Expression) : option string :=
  first_error
    (fun subquery =>
       match this subquery with
       | Some inner_stmt =>
           match
             first_error
               (fun forbidden_type =>
                  if isinstance_exp inner_stmt [forbidden_type]
                  then Some (PyStr.upper (class_name forbidden_type)
                             ++ " statements in subqueries are not allowed")
                  else None)
               FORBIDDEN_STATEMENT_TYPES
           with
           | Some m => Some m
           | None =>
               if negb (isinstance_exp inner_stmt [Select; With])
               then Some "Subqueries must contain only SELECT statements"
               else None
           end
       | None => None
       end)
    (find_all Subquery statement).

Definition _check_where_clause_requirement (statement : Expression) : option string :=
  if bool_decide (self_require_where_clause self = ∅) then None
  else
    first_error
      (fun select_stmt =>
         let tables_in_select := tables_under select_stmt in
         first_error
           (fun required_table =>
              if bool_decide (required_table ∈ tables_in_select)
                 && negb (truthy (get (args_of select_stmt) "where"))
              then Some ("Table '" ++ required_table
                         ++ "' requires a WHERE clause in SELECT queries")
              else None)
           (elements (self_require_where_clause self)))
      (find_all Select statement).

Definition _check_join_limit (statement : Expression) : option string :=
  first_error
    (fun select_stmt =>
       let tables := tables_under select_stmt in
       if Z.of_nat (size tables) >? self_max_join_tables self
       then Some ("Query joins " ++ PyStr.of_Z (Z.of_nat (size tables))
                  ++ " tables, which exceeds the maximum allowed limit of "
                  ++ PyStr.of_Z (self_max_join_tables self) ++ " tables")
       else None)
    (find_all Select statement).

End Methods.

(** A [for] loop over the security checks, in the order of the source. *)
Fixpoint first_violation (checks : list (option string)) : Result unit :=
  match checks with
  | [] => Return tt
  | Some error :: _ => Raise (pg_error SecurityViolationError error [])
  | None :: rest => first_violation rest
  end.

Section Validate.

(** [sqlglot.parse(sql, read="postgres")]: the statements of the input,
    [None] for an empty one, or an exception. *)
Variable parse : string -> Result (list (option Expression)).
Variable fnmatch : string -> string -> bool.
Variable self : SQLValidator.

(** The keyword of a [Command] node (its [this], a string), upper-cased;
    empty when there is none. *)
Definition cmd_name (statement : Expression) : string :=
  match get (args_of statement) "this" with
  | Some (AStr s) => PyStr.upper s
  | _ => ""
  end.

(** [validate_or_raise] from the statement on. *)
Definition validate_statement (statement : Expression) : Result unit :=
  if isinstance_exp statement [Command] then
    if PyStr.eqb (cmd_name statement) "EXPLAIN" then
      if negb (self_allow_explain self)
      then Raise (pg_error SecurityViolationError
                    "EXPLAIN statements are not allowed" [])
      else Return tt
    else
      Raise (pg_error SecurityViolationError
               ("Command '" ++ cmd_name statement
                ++ "' is not allowed. Only SELECT queries are permitted.") [])
  else
    let main :=
      if isinstance_exp statement [With] then
        match this statement with
        | Some main_query => Return main_query
        | None => Raise (pg_error SQLParseError
                           "WITH statement has no main query" [])
        end
      else Return statement in
    match main with
    | Raise e => Raise e
    | Return main_query =>
        first_violation
          [ _check_statement_type main_query;
            _check_dangerous_functions self statement;
            _check_blocked_tables fnmatch self statement;
            _check_blocked_columns self statement;
            _check_subquery_safety statement;
            _check_where_clause_requirement self statement;
            _check_join_limit self statement ]
    end.

Definition validate_or_raise (sql : string) : Result unit :=
  if PyStr.blank sql
  then Raise (pg_error SQLParseError "SQL query cannot be empty" [])
  else
    match parse sql with
    | Raise e =>
        Raise (raise_from
                 (pg_error SQLParseError
                    ("Failed to parse SQL: " ++ exc_message e) []) e)
    | Return parsed =>
        if (1 <? length parsed)%nat
        then Raise (pg_error SecurityViolationError
                      "Multiple statements not allowed. Only single SELECT queries are permitted." [])
        else
          match parsed with
          | [] => Raise (pg_error SQLParseError "No valid SQL statement found" [])
          | None :: _ =>
              Raise (pg_error SQLParseError "No valid SQL statement found" [])
          | Some statement :: _ => validate_statement statement
          end
    end.

(** [validate]: the two validator errors become a message; any other
    exception would pass through. *)
Definition validate (sql : string) : Result (bool * option string) :=
  match validate_or_raise sql with
  | Return _ => Return (true, None)
  | Raise e =>
      if isinstance e [SecurityViolationError; SQLParseError]
      then Return (false, Some (exc_message e))
      else Raise e
  end.

End Validate.

(** The two classes of error the validator raises. *)
Definition validator_error (e : Exc) : Prop :=
  exc_class e = SQLParseError \/ exc_class e = SecurityViolationError.

Section Extract.

(** [sqlglot.parse_one(sql, read="postgres")]: the tree of the input, or an
    exception. *)
Variable parse_one : string -> Result Expression.

(** [extract_tables]: [sorted(set(tables))] orders the distinct names as
    strings are compared, character by character. *)
Definition extract_tables (sql : string) : Result (list string) :=
  match parse_one sql with
  | Return parsed =>
      Return (merge_sort String.le (elements (tables_under parsed)))
  | Raise e =>
      Raise (raise_from
               (pg_error SQLParseError
                  ("Failed to extract tables: " ++ exc_message e) []) e)
  end.

End Extract.

End SqlValidator.

(** ** [retry.py] *)

Module Retry.

(** [a < b] on delays. *)
Definition Qltb (a b : Q) : bool := negb (Qle_bool b a).

Record RetryConfig : Type := {
  max_attempts : Z;
  initial_delay : Q;
  backoff_factor : Q;
  max_delay : Q;
  retriable_exceptions : list ExcClass
}.

Definition value_error (message : string) : Exc :=
  MkExc ValueError message [] INTERNAL_ERROR None None None.

(** [RetryConfig.__init__] *)
Definition init (max_attempts : Z) (initial_delay backoff_factor max_delay : Q)
    (retriable_exceptions : list ExcClass) : Result RetryConfig :=
  if max_attempts <? 1 then
    Raise (value_error "max_attempts must be >= 1")
  else if Qltb initial_delay 0 then
    Raise (value_error "initial_delay must be >= 0")
  else if Qltb backoff_factor 1 then
    Raise (value_error "backoff_factor must be >= 1.0")
  else if Qltb max_delay initial_delay then
    Raise (value_error "max_delay must be >= initial_delay")
  else
    Return {| max_attempts := max_attempts;
              initial_delay := initial_delay;
              backoff_factor := backoff_factor;
              max_delay := max_delay;
              retriable_exceptions := retriable_exceptions |}.

(** The defaults of the constructor. *)
Definition default : Result RetryConfig := init 3 1 2 60 [Exception].

(** [RetryConfig.calculate_delay] *)
Definition calculate_delay (self : RetryConfig) (attempt : Z) : Q :=
  let delay := (initial_delay self * backoff_factor self ^ attempt)%Q in
  Qmin delay (max_delay self).

(** [RetryExhaustedError.__init__] *)
Definition retry_exhausted_error (attempts : Z) (last_error : Exc) : Exc :=
  MkExc RetryExhaustedError
    ("Retry exhausted after " ++ PyStr.of_Z attempts
     ++ " attempts. Last error: " ++ exc_message last_error)
    [] INTERNAL_ERROR (Some attempts) (Some last_error) None.

Definition runtime_error (message : string) : Exc :=
  MkExc RuntimeError message [] INTERNAL_ERROR None None None.

Section WithRetry.

(** The state the wrapped operation and the sleeps act on. *)
Context {St A : Type}.

(** [await asyncio.sleep(delay)] *)
Variable sleep : Q -> St -> St.

Variable config : RetryConfig.

(** [await func(...)] *)
Variable func : St -> Result A * St.

(** The [for attempt in range(config.max_attempts)] loop of [wrapper],
    with [remaining] iterations to go, and the two statements after it. *)
Fixpoint wrapper_loop (remaining : nat) (attempt : Z)
    (last_exception : option Exc) (s : St) : Result A * St :=
  match remaining with
  | O =>
      match last_exception with
      | Some e => (Raise e, s)
      | None => (Raise (runtime_error "Unexpected retry loop exit"), s)
      end
  | S remaining' =>
      match func s with
      | (Return result, s1) => (Return result, s1)
      | (Raise e, s1) =>
          if isinstance e (retriable_exceptions config) then
            let is_last_attempt := attempt =? max_attempts config - 1 in
            if is_last_attempt then
              (Raise (raise_from
                        (retry_exhausted_error (max_attempts config) e) e),
               s1)
            else
              let delay := calculate_delay config attempt in
              wrapper_loop remaining' (attempt + 1) (Some e) (sleep delay s1)
          else (Raise e, s1)
      end
  end.

(** [with_retry(config)(func)] *)
Definition with_retry : St -> Result A * St :=
  wrapper_loop (Z.to_nat (max_attempts config)) 0 None.

End WithRetry.

(** An operation observed from outside: how often it was invoked, and the
    delays slept so far. *)
Record Trace : Type := { calls : nat; sleeps : list Q }.

Definition trace0 : Trace := {| calls := 0; sleeps := [] |}.

Definition record_sleep (delay : Q) (t : Trace) : Trace :=
  {| calls := calls t; sleeps := (sleeps t ++ [delay])%list |}.

(** An operation whose [n]-th invocation (0-based) ends as [outcomes n]. *)
Definition scripted {A} (outcomes : nat -> Result A) (t : Trace)
    : Result A * Trace :=
  (outcomes (calls t), {| calls := S (calls t); sleeps := sleeps t |}).

(** The wrapper around a scripted operation, from a fresh trace. *)
Definition run {A} (config : RetryConfig) (outcomes : nat -> Result A)
    : Result A * Trace :=
  with_retry record_sleep config (scripted outcomes) trace0.

(** The delays before retries [n .. n+len-1]. *)
Definition delays_from (config : RetryConfig) (n len : nat) : list Q :=
  map (fun i => calculate_delay config (Z.of_nat i)) (seq n len).

(** The delays before retries [0 .. n-1]. *)
Definition delays (config : RetryConfig) (n : nat) : list Q :=
  delays_from config 0 n.

(** The [i]-th invocation raises an error of a retriable class. *)
Definition fails_retriably {A} (config : RetryConfig)
    (outcomes : nat -> Result A) (i : nat) : Prop :=
  exists e, outcomes i = Raise e
            /\ isinstance e (retriable_exceptions config) = true.

(** An outcome that ends the loop: a result, or an error outside the
    retriable classes. *)
Definition final {A} (config : RetryConfig) (o : Result A) : Prop :=
  match o with
  | Return _ => True
  | Raise e => isinstance e (retriable_exceptions config) = false
  end.

End Retry.

(** ** [orchestrator.py] *)

Module Orchestrator.

(** The request and response records of [pg_mcp.models.query], with the
    fields the orchestrator reads and writes. *)
Inductive ReturnType : Type := SQL | RESULT.

Record QueryRequest : Type := {
  question : string;
  database : option string;
  return_type : ReturnType
}.

Record ValidationResult : Type := {
  is_valid : bool;
  is_select : bool;
  allows_data_modification : bool;
  uses_blocked_functions : list string;
  error_message : option string
}.

(** A row: column name to value, in column order. *)
Definition Row : Type := list (string * string).

Record QueryResult : Type := {
  columns : list string;
  rows : list Row;
  row_count : Z;
  execution_time_ms : Q
}.

Record ErrorDetail : Type := {
  code : ErrorCode;
  message : string;
  details : list (string * Detail)
}.

Record QueryResponse : Type := {
  success : bool;
  generated_sql : option string;
  validation : option ValidationResult;
  data : option QueryResult;
  error : option ErrorDetail;
  confidence : Z;
  tokens_used : option Z
}.

Section Pipeline.

(** The circuit breaker, the schema and the pool are objects of modules
    outside these sources; the orchestrator only passes them on. *)
Context {Breaker Schema Pool : Type}.

(** The collaborators injected into the orchestrator.  An operation
    that may answer differently from call to call takes the number of
    its earlier invocations. *)
Record Collaborators : Type := {
  (* circuit_breaker.allow_request(), record_success(), record_failure() *)
  allow_request : Breaker -> bool * Breaker;
  record_success : Breaker -> Breaker;
  record_failure : Breaker -> Breaker;
  (* circuit_breaker.state and circuit_breaker.failure_count *)
  circuit_state : Breaker -> string;
  failure_count : Breaker -> Z;
  (* sql_generator.generate(question, schema, previous_attempt,
     error_feedback), by the number of earlier calls *)
  generate : nat -> string -> Schema -> option string -> option string
             -> Result string;
  (* sql_validator.validate_or_raise *)
  validate_or_raise : string -> Result unit;
  (* schema_cache.get and schema_cache.load *)
  schema_get : string -> option Schema;
  schema_load : string -> Pool -> Result Schema;
  (* _get_executor: the executor of a database, or the manager's error *)
  get_executor : string -> Result unit;
  (* executor.execute(sql): the rows and the total count, by the number of
     earlier calls *)
  execute : nat -> string -> Result (list Row * Z);
  (* result_validator.validate(...).confidence *)
  result_validate : string -> string -> list Row -> Z -> Result Z;
  (* the time the execution took, in milliseconds *)
  elapsed_ms : Q
}.

(** The attributes of the orchestrator the pipeline reads. *)
Record QueryOrchestrator : Type := {
  deps : Collaborators;
  pools : list (string * Pool);
  max_retries : Z;
  max_question_length : Z;
  min_confidence_score : Z;
  validation_enabled : bool;
  _llm_retry_config : Retry.RetryConfig;
  _db_retry_config : Retry.RetryConfig
}.

(** [QueryOrchestrator.__init__]: the two retry configurations are
    built from the resilience configuration, and a refused one ends the
    construction. *)
Definition init (deps : Collaborators) (pools : list (string * Pool))
    (max_retries : Z) (retry_delay backoff_factor : Q)
    (max_question_length min_confidence_score : Z)
    (validation_enabled : bool) : Result QueryOrchestrator :=
  match Retry.init max_retries retry_delay backoff_factor 60 [LLMError] with
  | Raise e => Raise e
  | Return llm_retry_config =>
      match
        Retry.init max_retries retry_delay backoff_factor 30 [DatabaseError]
      with
      | Raise e => Raise e
      | Return db_retry_config =>
          Return {| deps := deps; pools := pools;
                    max_retries := max_retries;
                    max_question_length := max_question_length;
                    min_confidence_score := min_confidence_score;
                    validation_enabled := validation_enabled;
                    _llm_retry_config := llm_retry_config;
                    _db_retry_config := db_retry_config |}
      end
  end.

(** What a request changes: the breaker, the number of generator and
    executor invocations, and the delays slept between retries. *)
Record State : Type := {
  breaker : Breaker;
  gen_calls : nat;
  exec_calls : nat;
  slept : list Q
}.

Definition with_breaker (f : Breaker -> Breaker) (s : State) : State :=
  {| breaker := f (breaker s); gen_calls := gen_calls s;
     exec_calls := exec_calls s; slept := slept s |}.

Definition sleep (delay : Q) (s : State) : State :=
  {| breaker := breaker s; gen_calls := gen_calls s;
     exec_calls := exec_calls s; slept := (slept s ++ [delay])%list |}.

Variable self : QueryOrchestrator.

(** [self.pools.get(name)] *)
Fixpoint pools_get (l : list (string * Pool)) (name : string) : option Pool :=
  match l with
  | [] => None
  | (k, v) :: rest => if PyStr.eqb k name then Some v else pools_get rest name
  end.

(** [list(self.pools.keys())] *)
Definition pool_names : list string := map fst (pools self).

(** [database in self.pools] *)
Definition in_pools (name : string) : bool :=
  existsb (PyStr.eqb name) pool_names.

Definition _resolve_database (database : option string) : Result string :=
  match database with
  | Some database =>
      if negb (in_pools database) then
        Raise (pg_error DatabaseError
                 ("Database '" ++ database ++ "' not found")
                 [("requested_database", DStr database);
                  ("available_databases", DStrs pool_names)])
      else Return database
  | None =>
      let available_dbs := pool_names in
      match available_dbs with
      | [] => Raise (pg_error DatabaseError "No databases configured" [])
      | [only] => Return only
      | _ =>
          Raise (pg_error DatabaseError
                   "Multiple databases available, please specify which to query"
                   [("available_databases", DStrs available_dbs)])
      end
  end.

Definition validation_ok : ValidationResult :=
  {| is_valid := true; is_select := true;
     allows_data_modification := false;
     uses_blocked_functions := []; error_message := None |}.

(** One call of the generator. *)
Definition call_generate (question : string) (schema : Schema)
    (previous_sql error_feedback : option string) (s : State)
    : Result string * State :=
  (generate (deps self) (gen_calls s) question schema previous_sql error_feedback,
   {| breaker := breaker s; gen_calls := S (gen_calls s);
      exec_calls := exec_calls s; slept := slept s |}).

(** The [for attempt in range(max_retries + 1)] loop of
    [_generate_sql_with_retry], and the two statements after it. *)
Fixpoint generate_loop (question : string) (schema : Schema)
    (remaining : nat) (attempt : Z)
    (previous_sql error_feedback : option string) (s : State)
    : Result (string * ValidationResult * option Z) * State :=
  match remaining with
  | O =>
      (Raise (pg_error LLMError
                "SQL generation failed after all retry attempts"
                [("max_retries", DInt (max_retries self))]),
       with_breaker (record_failure (deps self)) s)
  | S remaining' =>
      let unexpected (e : Exc) (s' : State) :=
        (Raise (raise_from
                  (pg_error LLMError
                     ("SQL generation failed unexpectedly: " ++ exc_message e)
                     [("error_type", DStr (exc_class_name (exc_class e)))])
                  e),
         with_breaker (record_failure (deps self)) s') in
      let known (e : Exc) :=
        isinstance e [LLMError; SecurityViolationError; SQLParseError] in
      match call_generate question schema previous_sql error_feedback s with
      | (Raise e, s1) =>
          if known e then (Raise e, s1) else unexpected e s1
      | (Return generated_sql, s1) =>
          match validate_or_raise (deps self) generated_sql with
          | Raise validation_error =>
              if isinstance validation_error
                   [SecurityViolationError; SQLParseError]
              then
                if attempt <? max_retries self then
                  generate_loop question schema remaining' (attempt + 1)
                    (Some generated_sql)
                    (Some (exc_message validation_error)) s1
                else
                  (Raise validation_error,
                   with_breaker (record_failure (deps self)) s1)
              else
                if known validation_error then (Raise validation_error, s1)
                else unexpected validation_error s1
          | Return _ =>
              (Return (generated_sql, validation_ok, None),
               with_breaker (record_success (deps self)) s1)
          end
      end
  end.

Definition _generate_sql_with_retry (question : string) (schema : Schema)
    (s : State) : Result (string * ValidationResult * option Z) * State :=
  let (admitted, b) := allow_request (deps self) (breaker s) in
  let s0 := with_breaker (fun _ => b) s in
  if negb admitted then
    (Raise (pg_error LLMError
              "SQL generation service is temporarily unavailable (circuit breaker open)"
              [("circuit_state", DStr (circuit_state (deps self) b));
               ("failure_count", DInt (failure_count (deps self) b))]),
     s0)
  else
    generate_loop question schema (Z.to_nat (max_retries self + 1)) 0
      None None s0.

Definition _validate_results_safely (question sql : string)
    (results : list Row) (row_count : Z) : Z :=
  if negb (validation_enabled self) then 100
  else
    match result_validate (deps self) question sql results row_count with
    | Return confidence => confidence
    | Raise _ => 100
    end.

(** [_execute_with_protection], the operation the retry wraps.  The
    rate limiter's [acquire] only delays the caller. *)
Definition _execute_with_protection (sql : string) (s : State)
    : Result (list Row * Z) * State :=
  let (admitted, b) := allow_request (deps self) (breaker s) in
  let s0 := with_breaker (fun _ => b) s in
  if negb admitted then
    (Raise (pg_error DatabaseError
              "Database service temporarily unavailable (circuit breaker open)"
              [("circuit_state", DStr (circuit_state (deps self) b));
               ("failure_count", DInt (failure_count (deps self) b))]),
     s0)
  else
    let s1 := {| breaker := breaker s0; gen_calls := gen_calls s0;
                 exec_calls := S (exec_calls s0); slept := slept s0 |} in
    match execute (deps self) (exec_calls s0) sql with
    | Return r => (Return r, with_breaker (record_success (deps self)) s1)
    | Raise e =>
        let s2 := with_breaker (record_failure (deps self)) s1 in
        if isinstance e [DatabaseError] then (Raise e, s2)
        else
          (Raise (raise_from
                    (pg_error DatabaseError
                       ("Database execution failed: " ++ exc_message e)
                       [("error_type", DStr (exc_class_name (exc_class e)))])
                    e),
           s2)
    end.

Definition _execute_with_resilience (sql : string) (s : State)
    : Result (list Row * Z) * State :=
  match
    Retry.with_retry sleep (_db_retry_config self)
      (_execute_with_protection sql) s
  with
  | (Raise e, s') =>
      if isinstance e [RetryExhaustedError] then
        (Raise (raise_from
                  (pg_error DatabaseError
                     ("Database execution failed after "
                      ++ PyStr.of_Z (default 0 (exc_attempts e))
                      ++ " attempts")
                     [("last_error",
                       DStr (from_option exc_message "" (exc_last_error e)))])
                  e),
         s')
      else (Raise e, s')
  | r => r
  end.

Definition failure (e : ErrorDetail) : QueryResponse :=
  {| success := false; generated_sql := None; validation := None;
     data := None; error := Some e; confidence := 0;
     tokens_used := None |}.

(** The body of the [try] of [execute_query]. *)
Definition execute_query_body (request : QueryRequest) (s : State)
    : Result QueryResponse * State :=
  let question_length := Z.of_nat (String.length (question request)) in
  if question_length >? max_question_length self then
    (Return
       (failure
          {| code := QUESTION_TOO_LONG;
             message := "Question exceeds maximum length of "
                        ++ PyStr.of_Z (max_question_length self)
                        ++ " characters";
             details := [("question_length", DInt question_length);
                         ("max_length", DInt (max_question_length self))] |}),
     s)
  else
    match _resolve_database (database request) with
    | Raise e => (Raise e, s)
    | Return database_name =>
        let loaded :=
          match schema_get (deps self) database_name with
          | Some schema => Return schema
          | None =>
              match pools_get (pools self) database_name with
              | None =>
                  Raise (pg_error DatabaseError
                           ("No connection pool available for database '"
                            ++ database_name ++ "'")
                           [("database", DStr database_name)])
              | Some pool =>
                  match schema_load (deps self) database_name pool with
                  | Return schema => Return schema
                  | Raise e =>
                      Raise (raise_from
                               (pg_error SchemaLoadError
                                  ("Failed to load schema for database '"
                                   ++ database_name ++ "': " ++ exc_message e)
                                  [("database", DStr database_name);
                                   ("error", DStr (exc_message e))])
                               e)
                  end
              end
          end in
        match loaded with
        | Raise e => (Raise e, s)
        | Return schema =>
            match _generate_sql_with_retry (question request) schema s with
            | (Raise e, s1) => (Raise e, s1)
            | (Return (generated_sql, validation_result, tokens), s1) =>
                match return_type request with
                | SQL =>
                    (Return
                       {| success := true;
                          generated_sql := Some generated_sql;
                          validation := Some validation_result;
                          data := None; error := None;
                          confidence := 100; tokens_used := tokens |},
                     s1)
                | RESULT =>
                    match get_executor (deps self) database_name with
                    | Raise e => (Raise e, s1)
                    | Return _ =>
                        match _execute_with_resilience generated_sql s1 with
                        | (Raise e, s2) => (Raise e, s2)
                        | (Return (results, total_count), s2) =>
                            let result_confidence :=
                              _validate_results_safely (question request)
                                generated_sql results total_count in
                            if result_confidence <? min_confidence_score self
                            then
                              (Return
                                 {| success := false;
                                    generated_sql := Some generated_sql;
                                    validation := Some validation_result;
                                    data := None;
                                    error :=
                                      Some
                                        {| code := LOW_CONFIDENCE;
                                           message :=
                                             "Result confidence "
                                             ++ PyStr.of_Z result_confidence
                                             ++ "% is below the required threshold of "
                                             ++ PyStr.of_Z (min_confidence_score self)
                                             ++ "%";
                                           details :=
                                             [("confidence", DInt result_confidence);
                                              ("threshold",
                                               DInt (min_confidence_score self))] |};
                                    confidence := result_confidence;
                                    tokens_used := tokens |},
                               s2)
                            else
                              let query_result :=
                                {| columns :=
                                     match results with
                                     | first :: _ => map fst first
                                     | [] => []
                                     end;
                                   rows := results;
                                   row_count := Z.of_nat (length results);
                                   execution_time_ms := elapsed_ms (deps self) |} in
                              (Return
                                 {| success := true;
                                    generated_sql := Some generated_sql;
                                    validation := Some validation_result;
                                    data := Some query_result;
                                    error := None;
                                    confidence := result_confidence;
                                    tokens_used := tokens |},
                               s2)
                        end
                    end
                end
            end
        end
    end.

(** [execute_query]: the body and its two [except] handlers.  Logging,
    metrics and the request identifier are left out. *)
Definition execute_query (request : QueryRequest) (s : State)
    : QueryResponse * State :=
  match execute_query_body request s with
  | (Return response, s') => (response, s')
  | (Raise e, s') =>
      if isinstance e [PgMcpError] then
        (failure {| code := exc_code e; message := exc_message e;
                    details := exc_details e |},
         s')
      else
        (failure
           {| code := INTERNAL_ERROR;
              message := "Internal server error: " ++ exc_message e;
              details := [("error_type",
                           DStr (exc_class_name (exc_class e)))] |},
         s')
  end.

(** The responses the pipeline builds: to a request in SQL mode, to a
    result scored below the threshold, to an accepted result, and to a
    question that is too long. *)
Definition sql_only (sql : string) : QueryResponse :=
  {| success := true; generated_sql := Some sql;
     validation := Some validation_ok; data := None; error := None;
     confidence := 100; tokens_used := None |}.

Definition low_confidence (sql : string) (score : Z) : QueryResponse :=
  {| success := false; generated_sql := Some sql;
     validation := Some validation_ok; data := None;
     error :=
       Some {| code := LOW_CONFIDENCE;
               message := "Result confidence " ++ PyStr.of_Z score
                          ++ "% is below the required threshold of "
                          ++ PyStr.of_Z (min_confidence_score self) ++ "%";
               details := [("confidence", DInt score);
                           ("threshold", DInt (min_confidence_score self))] |};
     confidence := score; tokens_used := None |}.

Definition answered (sql : string) (results : list Row) (score : Z)
    : QueryResponse :=
  {| success := true; generated_sql := Some sql;
     validation := Some validation_ok;
     data := Some {| columns := match results with
                                | first :: _ => map fst first
                                | [] => []
                                end;
                     rows := results;
                     row_count := Z.of_nat (length results);
                     execution_time_ms := elapsed_ms (deps self) |};
     error := None; confidence := score; tokens_used := None |}.

Definition too_long (request : QueryRequest) : QueryResponse :=
  failure
    {| code := QUESTION_TOO_LONG;
       message := "Question exceeds maximum length of "
                  ++ PyStr.of_Z (max_question_length self) ++ " characters";
       details := [("question_length",
                    DInt (Z.of_nat (String.length (question request))));
                   ("max_length", DInt (max_question_length self))] |}.

End Pipeline.

(** How [_generate_sql_with_retry] surfaces an error raised inside its
    [try]: the three known classes as they are, anything else wrapped. *)
Definition surfaced (e : Exc) : Exc :=
  if isinstance e [LLMError; SecurityViolationError; SQLParseError] then e
  else raise_from
         (pg_error LLMError
            ("SQL generation failed unexpectedly: " ++ exc_message e)
            [("error_type", DStr (exc_class_name (exc_class e)))])
         e.

Arguments Collaborators : clear implicits.
Arguments QueryOrchestrator : clear implicits.
Arguments State : clear implicits.

End Orchestrator.

(** ** The notions the claims are stated with *)

Module Claimed.
Import Sqlglot.

(** The nodes below a SELECT that belong to it and to none of the SELECTs
    nested in it: the descent stops at every nested [Select]. *)
Fixpoint own_nodes (e : Expression) : list Expression :=
  match e with
  | Exp _ args =>
      (fix of_args (l : list (string * Arg Expression)) : list Expression :=
         match l with
         | [] => []
         | (_, a) :: l' =>
             (match a with
              | AExp e' =>
                  if bool_decide (cls_of e' = Select) then []
                  else e' :: own_nodes e'
              | AList es =>
                  (fix of_list (es : list Expression) : list Expression :=
                     match es with
                     | [] => []
                     | e' :: es' =>
                         ((if bool_decide (cls_of e' = Select) then []
                           else e' :: own_nodes e') ++ of_list es')%list
                     end) es
              | _ => []
              end ++ of_args l')%list
         end) args
  end.

(** The distinct tables a SELECT references directly, those of its nested
    SELECTs left out. *)
Definition direct_tables (select_stmt : Expression) : gset string :=
  list_to_set
    (map (fun t => PyStr.lower (name t))
       (List.filter
          (fun t => bool_decide (cls_of t = Table)
                    && negb (PyStr.eqb (name t) ""))
          (own_nodes select_stmt))).

(** The statement forms the specification allows at the top level: a
    SELECT or a set operation, a WITH or a parenthesised query whose body
    is one, and EXPLAIN when it is allowed. *)
Definition select_like (e : Expression) : bool :=
  SqlValidator.isinstance_exp e [Select; Union; Intersect; Except].

Definition allowed_top_level (allow_explain : bool) (e : Expression) : bool :=
  select_like e
  || (bool_decide (cls_of e = With)
      && from_option select_like false (this e))
  || (bool_decide (cls_of e = Subquery)
      && from_option select_like false (this e))
  || (allow_explain
      && bool_decide (cls_of e = Command)
      && PyStr.eqb (SqlValidator.cmd_name e) "EXPLAIN").

End Claimed.

(** ** Parsed queries used as inputs *)

Module Examples.
Import Sqlglot SqlValidator.

Definition ident (s : string) : Expression :=
  Exp Identifier [("this", AStr s); ("quoted", ABool false)].

(** [t.c] *)
Definition column (t c : string) : Expression :=
  Exp Column [("this", AExp (ident c)); ("table", AExp (ident t))].

Definition table_ (n : string) : Expression :=
  Exp Table [("this", AExp (ident n))].

(** [n AS a] in a FROM clause *)
Definition table_as (n a : string) : Expression :=
  Exp Table [("this", AExp (ident n));
             ("alias", AExp (Exp (OtherClass "TableAlias")
                               [("this", AExp (ident a))]))].

Definition from_ (t : Expression) : Expression :=
  Exp (OtherClass "From") [("this", AExp t)].

Definition join (t : Expression) : Expression :=
  Exp (OtherClass "Join") [("this", AExp t)].

Definition number (n : string) : Expression :=
  Exp Literal [("this", AStr n); ("is_string", ABool false)].

(** [SELECT u.password FROM users u] *)
Definition sql_alias : string := "SELECT u.password FROM users u".
Definition ast_alias : Expression :=
  Exp Select [("expressions", AList [column "u" "password"]);
              ("from_", AExp (from_ (table_as "users" "u")))].

(** [SELECT users.password FROM users] *)
Definition sql_qualified : string := "SELECT users.password FROM users".
Definition ast_qualified : Expression :=
  Exp Select [("expressions", AList [column "users" "password"]);
              ("from_", AExp (from_ (table_ "users")))].

(** [(SELECT 1)] *)
Definition sql_paren : string := "(SELECT 1)".
Definition ast_paren : Expression :=
  Exp Subquery [("this", AExp (Exp Select [("expressions", AList [number "1"])]))].

(** [EXPLAIN DELETE FROM t]: a [Command] whose [this] is the keyword and
    whose [expression] is the rest of the text. *)
Definition sql_explain : string := "EXPLAIN DELETE FROM t".
Definition ast_explain : Expression :=
  Exp Command [("this", AStr "EXPLAIN");
               ("expression",
                AExp (Exp Literal [("this", AStr " DELETE FROM t");
                                   ("is_string", ABool true)]))].

(** [SELECT 1 FROM a, b, c, d] *)
Definition sql_four : string := "SELECT 1 FROM a, b, c, d".
Definition ast_four : Expression :=
  Exp Select [("expressions", AList [number "1"]);
              ("from_", AExp (from_ (table_ "a")));
              ("joins", AList [join (table_ "b"); join (table_ "c");
                               join (table_ "d")])].

(** [SELECT 1 FROM a, b WHERE a.x IN (SELECT c.x FROM c, d)] *)
Definition sql_nested : string :=
  "SELECT 1 FROM a, b WHERE a.x IN (SELECT c.x FROM c, d)".
Definition ast_inner : Expression :=
  Exp Select [("expressions", AList [column "c" "x"]);
              ("from_", AExp (from_ (table_ "c")));
              ("joins", AList [join (table_ "d")])].
Definition ast_nested : Expression :=
  Exp Select
    [("expressions", AList [number "1"]);
     ("from_", AExp (from_ (table_ "a")));
     ("joins", AList [join (table_ "b")]);
     ("where",
      AExp (Exp (OtherClass "Where")
              [("this",
                AExp (Exp (OtherClass "In")
                        [("this", AExp (column "a" "x"));
                         ("query",
                          AExp (Exp Subquery [("this", AExp ast_inner)]))]))]))].

(** A parser known on the listed inputs only. *)
Definition parse_error : Exc :=
  MkExc (OtherException "ParseError") "Invalid expression / Unexpected token"
    [] INTERNAL_ERROR None None None.

Fixpoint parser (known : list (string * Expression)) (sql : string)
    : Result (list (option Expression)) :=
  match known with
  | [] => Raise parse_error
  | (text, ast) :: rest =>
      if PyStr.eqb text sql then Return [Some ast] else parser rest sql
  end.

Definition parse : string -> Result (list (option Expression)) :=
  parser [(sql_alias, ast_alias); (sql_qualified, ast_qualified);
          (sql_paren, ast_paren); (sql_explain, ast_explain);
          (sql_four, ast_four); (sql_nested, ast_nested)].

(** Literal matching, enough where no pattern is configured. *)
Definition fnmatch_literal (name pattern : string) : bool :=
  PyStr.eqb name pattern.

Definition config (explain : bool) (cols : gmap string (list string))
    (join_cap : Z) : SecurityConfig :=
  {| blocked_functions := []; blocked_tables := [];
     blocked_columns := cols; allow_explain := explain;
     require_where_clause := []; max_join_tables := join_cap |}.

(** [blocked_columns = {"users": ["password"]}] *)
Definition validator_password : SQLValidator :=
  init (config false {["users" := ["password"]]} 10) None None false.

(** [max_join_tables = 3] *)
Definition validator_cap3 : SQLValidator :=
  init (config false ∅ 3) None None false.

Definition validator_explain (explain : bool) : SQLValidator :=
  init (config explain ∅ 10) None None false.

(** [RetryConfig(max_attempts=3, initial_delay=1.0, backoff_factor=2.0,
    max_delay=60.0, retriable_exceptions=(DatabaseError,))] *)
Definition retry_db : Retry.RetryConfig :=
  {| Retry.max_attempts := 3; Retry.initial_delay := 1;
     Retry.backoff_factor := 2; Retry.max_delay := 60;
     Retry.retriable_exceptions := [DatabaseError] |}.

(** [RetryConfig(initial_delay=1.0, backoff_factor=2.0, max_delay=10.0)],
    the configuration of the docstring of [calculate_delay]. *)
Definition retry_doc : Retry.RetryConfig :=
  {| Retry.max_attempts := 3; Retry.initial_delay := 1;
     Retry.backoff_factor := 2; Retry.max_delay := 10;
     Retry.retriable_exceptions := [Exception] |}.

Definition db_error : Exc := pg_error DatabaseError "connection lost" [].

Definition value_error : Exc := Retry.value_error "bad argument".

(** [DELETE FROM users WHERE id = 1] *)
Definition ast_delete : Expression :=
  Exp Delete
    [("this", AExp (table_ "users"));
     ("where",
      AExp (Exp (OtherClass "Where")
              [("this",
                AExp (Exp (OtherClass "EQ")
                        [("this", AExp (Exp Column [("this", AExp (ident "id"))]));
                         ("expression", AExp (number "1"))]))]))].

(** [SELECT PG_SLEEP(5)]: the call is an [Anonymous] function node. *)
Definition ast_sleep : Expression :=
  Exp Select
    [("expressions",
      AList [Exp (FuncClass "Anonymous")
               [("this", AStr "PG_SLEEP");
                ("expressions", AList [number "5"])]])].

(** [SELECT * FROM Orders o JOIN users ON o.uid = users.id]: two tables,
    one written with a capital. *)
Definition ast_orders : Expression :=
  Exp Select
    [("expressions", AList [Exp Star []]);
     ("from_", AExp (from_ (table_as "Orders" "o")));
     ("joins", AList [join (table_ "users")])].

Definition value_error_exc : Exc := Retry.value_error "no executor".

(** Collaborators for the scenarios: a breaker that counts failures and
    always admits, a generator that answers [sql], the validator above with
    the join cap 3, a cached schema, an executor that ends as [executed], and
    a result validator that answers [scored]. *)
Definition collaborators (sql : string)
    (executed : nat -> Result (list Orchestrator.Row * Z))
    (scored : Result Z) : Orchestrator.Collaborators nat unit unit :=
  {| Orchestrator.allow_request := fun b => (true, b);
     Orchestrator.record_success := fun _ => 0%nat;
     Orchestrator.record_failure := S;
     Orchestrator.circuit_state := fun _ => "closed";
     Orchestrator.failure_count := Z.of_nat;
     Orchestrator.generate := fun _ _ _ _ _ => Return sql;
     Orchestrator.validate_or_raise :=
       validate_or_raise parse fnmatch_literal validator_cap3;
     Orchestrator.schema_get := fun _ => Some tt;
     Orchestrator.schema_load := fun _ _ => Return tt;
     Orchestrator.get_executor := fun _ => Return tt;
     Orchestrator.execute := fun n _ => executed n;
     Orchestrator.result_validate := fun _ _ _ _ => scored;
     Orchestrator.elapsed_ms := 5 |}.

(** An orchestrator over the named pools, with [max_retries = 2], questions
    of at most 5000 characters and a minimum confidence of 70. *)
Definition orchestrator (names : list string)
    (executed : nat -> Result (list Orchestrator.Row * Z))
    (scored : Result Z) : Orchestrator.QueryOrchestrator nat unit unit :=
  {| Orchestrator.deps := collaborators sql_qualified executed scored;
     Orchestrator.pools := map (fun n => (n, tt)) names;
     Orchestrator.max_retries := 2;
     Orchestrator.max_question_length := 5000;
     Orchestrator.min_confidence_score := 70;
     Orchestrator.validation_enabled := true;
     Orchestrator._llm_retry_config :=
       {| Retry.max_attempts := 2; Retry.initial_delay := 1;
          Retry.backoff_factor := 2; Retry.max_delay := 60;
          Retry.retriable_exceptions := [LLMError] |};
     Orchestrator._db_retry_config :=
       {| Retry.max_attempts := 2; Retry.initial_delay := 1;
          Retry.backoff_factor := 2; Retry.max_delay := 30;
          Retry.retriable_exceptions := [DatabaseError] |} |}.

(** The same orchestrator behind a circuit breaker that refuses every
    request. *)
Definition orchestrator_refused (names : list string)
    (executed : nat -> Result (list Orchestrator.Row * Z))
    (scored : Result Z) : Orchestrator.QueryOrchestrator nat unit unit :=
  {| Orchestrator.deps :=
       {| Orchestrator.allow_request := fun b => (false, b);
          Orchestrator.record_success := fun _ => 0%nat;
          Orchestrator.record_failure := S;
          Orchestrator.circuit_state := fun _ => "open";
          Orchestrator.failure_count := Z.of_nat;
          Orchestrator.generate := fun _ _ _ _ _ => Return sql_qualified;
          Orchestrator.validate_or_raise :=
            validate_or_raise parse fnmatch_literal validator_cap3;
          Orchestrator.schema_get := fun _ => Some tt;
          Orchestrator.schema_load := fun _ _ => Return tt;
          Orchestrator.get_executor := fun _ => Return tt;
          Orchestrator.execute := fun n _ => executed n;
          Orchestrator.result_validate := fun _ _ _ _ => scored;
          Orchestrator.elapsed_ms := 5 |};
     Orchestrator.pools := map (fun n => (n, tt)) names;
     Orchestrator.max_retries := 2;
     Orchestrator.max_question_length := 5000;
     Orchestrator.min_confidence_score := 70;
     Orchestrator.validation_enabled := true;
     Orchestrator._llm_retry_config :=
       {| Retry.max_attempts := 2; Retry.initial_delay := 1;
          Retry.backoff_factor := 2; Retry.max_delay := 60;
          Retry.retriable_exceptions := [LLMError] |};
     Orchestrator._db_retry_config :=
       {| Retry.max_attempts := 2; Retry.initial_delay := 1;
          Retry.backoff_factor := 2; Retry.max_delay := 30;
          Retry.retriable_exceptions := [DatabaseError] |} |}.

Definition one_row : Result (list Orchestrator.Row * Z) :=
  Return ([[("id", "1"); ("name", "Alice")]], 1).

Definition state0 : Orchestrator.State nat :=
  {| Orchestrator.breaker := 0%nat; Orchestrator.gen_calls := 0;
     Orchestrator.exec_calls := 0; Orchestrator.slept := [] |}.

Definition request (db : option string) (mode : Orchestrator.ReturnType)
    : Orchestrator.QueryRequest :=
  {| Orchestrator.question := "How many users?";
     Orchestrator.database := db;
     Orchestrator.return_type := mode |}.

End Examples.

(** * Properties *)

(** ** Walking a tree *)

Module TreeFacts.
Import Sqlglot Claimed.

Lemma Expression_children_ind (P : Expression -> Prop) :
  (forall e, (forall ch, ch ∈ children e -> P ch) -> P e) -> forall e, P e.
Proof.
  intros step. apply Expression_nested_ind. intros c args Hall.
  apply step. unfold children. simpl.
  induction Hall as [|[k a] args Ha _ IH]; simpl.
  - by intros ch ?%elem_of_nil.
  - intros ch [Hin|Hin]%elem_of_app; [|by apply IH].
    rewrite Forall_forall in Ha. by apply Ha.
Qed.

Lemma elem_of_concat_zip {A} (xs ys : list (list A)) (x : A) :
  x ∈ concat (zip_levels xs ys) <-> x ∈ concat xs \/ x ∈ concat ys.
Proof.
  revert ys. induction xs as [|a xs IH]; intros [|b ys]; simpl.
  - rewrite elem_of_nil. tauto.
  - rewrite elem_of_nil. tauto.
  - rewrite elem_of_nil. tauto.
  - rewrite !elem_of_app, IH. tauto.
Qed.

(** A node is walked when it is the root or is walked from a child. *)
Lemma elem_of_walk (x e : Expression) :
  x ∈ walk e <-> x = e \/ exists ch, ch ∈ children e /\ x ∈ walk ch.
Proof.
  destruct e as [c args]. unfold walk, children. simpl.
  rewrite elem_of_cons.
  apply or_iff_compat_l.
  induction args as [|[k a] args IH].
  - simpl. split; [by intros ?%elem_of_nil | intros (ch & ?%elem_of_nil & _); done].
  - cbn [flat_map snd]. rewrite elem_of_concat_zip, IH. clear IH.
    assert (x ∈ concat
              match a with
              | AExp e' => levels e'
              | AList es =>
                  (fix of_list (es : list Expression) : list (list Expression) :=
                     match es with
                     | [] => []
                     | e' :: es' => zip_levels (levels e') (of_list es')
                     end) es
              | _ => []
              end
            <-> exists ch, ch ∈ arg_nodes a /\ x ∈ concat (levels ch)) as ->.
    { destruct a as [e'|es| |]; cbn [arg_nodes].
      - setoid_rewrite list_elem_of_singleton. naive_solver.
      - induction es as [|e' es IHes].
        + simpl. setoid_rewrite elem_of_nil. naive_solver.
        + rewrite elem_of_concat_zip, IHes. setoid_rewrite elem_of_cons.
          naive_solver.
      - simpl. setoid_rewrite elem_of_nil. naive_solver.
      - simpl. setoid_rewrite elem_of_nil. naive_solver. }
    setoid_rewrite elem_of_app. naive_solver.
Qed.

Lemma walk_root e : e ∈ walk e.
Proof. apply elem_of_walk. by left. Qed.

Lemma walk_trans x y z : x ∈ walk y -> y ∈ walk z -> x ∈ walk z.
Proof.
  revert x y. induction z as [z IH] using Expression_children_ind.
  intros x y Hxy [->|(ch & Hch & Hy)]%elem_of_walk; [done|].
  apply elem_of_walk. right. exists ch. split; [done|]. by eapply IH.
Qed.

Lemma own_nodes_child (x e : Expression) :
  x ∈ own_nodes e ->
  exists ch, ch ∈ children e /\ (x = ch \/ x ∈ own_nodes ch).
Proof.
  destruct e as [c args]. unfold children. simpl.
  induction args as [|[k a] args IH].
  - by intros ?%elem_of_nil.
  - cbn [flat_map snd]. setoid_rewrite elem_of_app.
    intros [H|H]; [|destruct (IH H) as (ch & ? & ?); eauto].
    clear IH.
    assert (exists ch, ch ∈ arg_nodes a /\ (x = ch \/ x ∈ own_nodes ch))
      as (ch & ? & ?); [|eauto].
    destruct a as [e'|es| |]; cbn [arg_nodes].
    + destruct (bool_decide _); [by apply elem_of_nil in H|].
      exists e'. split; [by left | by apply elem_of_cons in H].
    + induction es as [|e' es IHes]; [by apply elem_of_nil in H|].
      apply elem_of_app in H as [H|H].
      * destruct (bool_decide _); [by apply elem_of_nil in H|].
        exists e'. split; [by left | by apply elem_of_cons in H].
      * destruct (IHes H) as (ch & ? & ?). exists ch. split; [by right | done].
    + by apply elem_of_nil in H.
    + by apply elem_of_nil in H.
Qed.

(** What belongs to a SELECT is found by walking it. *)
Lemma own_nodes_walk (x e : Expression) : x ∈ own_nodes e -> x ∈ walk e.
Proof.
  revert x. induction e as [e IH] using Expression_children_ind.
  intros x (ch & Hch & [->|H])%own_nodes_child; apply elem_of_walk; right;
    exists ch; split; try done; [apply walk_root | by apply IH].
Qed.

(** [find_all] keeps the walked nodes of the class. *)
Lemma elem_of_find_all c x e :
  x ∈ find_all c e <-> x ∈ walk e /\ cls_of x = c.
Proof.
  unfold find_all. rewrite list_elem_of_In, filter_In, <- list_elem_of_In.
  rewrite bool_decide_eq_true. tauto.
Qed.

(** The tables counted for a SELECT: every named table of its subtree. *)
Lemma elem_of_tables_under n sel :
  n ∈ SqlValidator.tables_under sel <->
  exists t, t ∈ walk sel /\ cls_of t = Table /\ name t <> ""
            /\ n = PyStr.lower (name t).
Proof.
  unfold SqlValidator.tables_under.
  rewrite elem_of_list_to_set, list_elem_of_In, in_map_iff.
  split.
  - intros (t & <- & (Hin & Hname)%filter_In).
    apply list_elem_of_In, elem_of_find_all in Hin as [Hw Hc].
    exists t. repeat split; try done.
    apply negb_true_iff, bool_decide_eq_false in Hname. done.
  - intros (t & Hw & Hc & Hname & ->). exists t. split; [done|].
    apply filter_In. split.
    + apply list_elem_of_In, elem_of_find_all. done.
    + apply negb_true_iff, bool_decide_eq_false. done.
Qed.

(** The tables of a SELECT proper are among those counted for it. *)
Lemma direct_tables_subseteq sel :
  direct_tables sel ⊆ SqlValidator.tables_under sel.
Proof.
  intros n. unfold direct_tables.
  rewrite elem_of_list_to_set, list_elem_of_In, in_map_iff.
  intros (t & <- & (Hin & Hp)%filter_In).
  apply andb_true_iff in Hp as [Hc Hname].
  apply bool_decide_eq_true in Hc.
  apply negb_true_iff, bool_decide_eq_false in Hname.
  apply elem_of_tables_under. exists t. repeat split; try done.
  by apply own_nodes_walk, list_elem_of_In.
Qed.

(** The tables of a nested SELECT count for the SELECT around it. *)
Lemma tables_under_nested inner outer :
  inner ∈ walk outer ->
  SqlValidator.tables_under inner ⊆ SqlValidator.tables_under outer.
Proof.
  intros Hin n (t & Hw & ?)%elem_of_tables_under.
  apply elem_of_tables_under. exists t. split; [|done].
  by eapply walk_trans.
Qed.

End TreeFacts.

(** ** The validator *)

Module ValidatorFacts.
Import Sqlglot SqlValidator.

Lemma first_error_None {A} (body : A -> option string) (l : list A) :
  first_error body l = None <-> forall x, x ∈ l -> body x = None.
Proof.
  induction l as [|x l IH]; simpl.
  - split; [by intros _ x ?%elem_of_nil | reflexivity].
  - destruct (body x) eqn:Hx.
    + split; [discriminate|]. intros H. rewrite <- Hx. apply H. by left.
    + rewrite IH. split.
      * intros H y [->|Hy]%elem_of_cons; [done | by apply H].
      * intros H y Hy. apply H. by right.
Qed.

Lemma first_error_Some {A} (body : A -> option string) (l : list A) m :
  first_error body l = Some m -> exists x, x ∈ l /\ body x = Some m.
Proof.
  induction l as [|x l IH]; simpl; [discriminate|].
  destruct (body x) eqn:Hx.
  - intros [= <-]. exists x. split; [by left | done].
  - intros H. destruct (IH H) as (y & Hy & Hb). exists y. split; [by right | done].
Qed.

Lemma first_violation_Return checks :
  first_violation checks = Return tt <-> forall c, c ∈ checks -> c = None.
Proof.
  induction checks as [|[m|] l IH]; simpl.
  - split; [by intros _ c ?%elem_of_nil | reflexivity].
  - split; [discriminate|]. intros H. discriminate (H (Some m)). by left.
  - rewrite IH. split.
    + intros H c [->|Hc]%elem_of_cons; [done | by apply H].
    + intros H c Hc. apply H. by right.
Qed.

Lemma first_violation_Raise checks e :
  first_violation checks = Raise e ->
  exists m, Some m ∈ checks /\ e = pg_error SecurityViolationError m [].
Proof.
  induction checks as [|[m|] l IH]; simpl; [discriminate| |].
  - intros [= <-]. exists m. split; [by left | done].
  - intros H. destruct (IH H) as (m & Hm & ->). exists m. split; [by right | done].
Qed.

Lemma validator_error_isinstance e :
  validator_error e -> isinstance e [SecurityViolationError; SQLParseError] = true.
Proof. intros [H|H]; unfold isinstance; rewrite H; reflexivity. Qed.

Lemma validate_statement_raises fnmatch self statement e :
  validate_statement fnmatch self statement = Raise e -> validator_error e.
Proof.
  unfold validate_statement.
  destruct (isinstance_exp statement [Command]).
  { destruct (PyStr.eqb _ _); [destruct (negb _)|];
      intros [= <-] || discriminate; by right. }
  destruct (isinstance_exp statement [With]);
    [destruct (this statement); [|intros [= <-]; by left]|];
    intros Hv; apply first_violation_Raise in Hv as (m & _ & ->); by right.
Qed.

Lemma validate_or_raise_raises parse fnmatch self sql e :
  validate_or_raise parse fnmatch self sql = Raise e -> validator_error e.
Proof.
  unfold validate_or_raise.
  destruct (PyStr.blank sql); [intros [= <-]; by left|].
  destruct (parse sql) as [parsed|e0].
  - destruct (1 <? length parsed)%nat; [intros [= <-]; by right|].
    destruct parsed as [|[statement|] rest]; try (intros [= <-]; by left).
    apply validate_statement_raises.
  - destruct e0; intros [= <-]; by left.
Qed.


Lemma isinstance_exp_singleton e c :
  isinstance_exp e [c] = bool_decide (cls_of e = c).
Proof. unfold isinstance_exp. simpl. apply orb_false_r. Qed.

(** The statement-kind check passes exactly the SELECTs and the set
    operations. *)
Lemma check_statement_type_None e :
  _check_statement_type e = None <-> Claimed.select_like e = true.
Proof.
  destruct e as [c args]. destruct c; vm_compute; split; congruence.
Qed.

End ValidatorFacts.

Import Sqlglot SqlValidator ValidatorFacts.

(** C1 (the code at the failing input).  With
    [blocked_columns = {"users": ["password"]}] the validator accepts
    [SELECT u.password FROM users u]: the qualifier it looks up is the alias
    [u], which is no key of the map.  The same column qualified by the table
    name is rejected, citing [users.password]. *)
Theorem alias_qualified_blocked_column_accepted
    (fnmatch : string -> string -> bool) :
  validate_or_raise Examples.parse fnmatch Examples.validator_password
    Examples.sql_alias = Return tt
  /\ _check_blocked_columns Examples.validator_password Examples.ast_alias = None
  /\ validate_or_raise Examples.parse fnmatch Examples.validator_password
       Examples.sql_qualified
     = Raise (pg_error SecurityViolationError
                "Access to column 'users.password' is not allowed" []).
Proof. repeat split; reflexivity. Qed.


(** A statement of an allowed form other than a parenthesised query passes
    the statement-kind check: an EXPLAIN never reaches it, a WITH is checked
    on its body, the others on themselves. *)
Lemma allowed_form_passes_statement_type explain statement :
  Claimed.allowed_top_level explain statement = true ->
  cls_of statement <> Subquery ->
  cls_of statement = Command
  \/ (cls_of statement = With
      /\ exists main, this statement = Some main
                      /\ _check_statement_type main = None)
  \/ _check_statement_type statement = None.
Proof.
  unfold Claimed.allowed_top_level. intros H Hs.
  apply orb_true_iff in H as [H|H]; [|left].
  2:{ apply andb_true_iff in H as [H _]. apply andb_true_iff in H as [_ H].
      by apply bool_decide_eq_true in H. }
  apply orb_true_iff in H as [H|H].
  2:{ apply andb_true_iff in H as [H _]. by apply bool_decide_eq_true in H. }
  apply orb_true_iff in H as [H|H].
  - right. right. by apply check_statement_type_None.
  - apply andb_true_iff in H as [Hw Hm]. apply bool_decide_eq_true in Hw.
    right. left. split; [done|].
    destruct (this statement) as [main|]; [|discriminate].
    exists main. split; [done|]. by apply check_statement_type_None.
Qed.


(** The SELECT of four tables passes the statement-kind check. *)
Lemma select_passes_statement_type_witness :
  cls_of Examples.ast_four = Command
  \/ (cls_of Examples.ast_four = With
      /\ exists main, this Examples.ast_four = Some main
                      /\ _check_statement_type main = None)
  \/ _check_statement_type Examples.ast_four = None.
Proof.
  apply (allowed_form_passes_statement_type false Examples.ast_four).
  - reflexivity.
  - discriminate.
Defined.

(** C2 (the code at the failing input).  A parenthesised query at the top
    level, whatever it wraps, is rejected by the statement-kind check;
    [(SELECT 1)], one of the forms the specification allows, is rejected with
    that message. *)
Theorem top_level_subquery_rejected
    (fnmatch : string -> string -> bool) (self : SQLValidator)
    (args : list (string * Arg Expression)) :
  validate_statement fnmatch self (Exp Subquery args)
  = Raise (pg_error SecurityViolationError
             "Statement type Subquery is not allowed. Only SELECT queries are permitted."
             [])
  /\ Claimed.allowed_top_level (self_allow_explain self) Examples.ast_paren = true
  /\ validate_or_raise Examples.parse fnmatch self Examples.sql_paren
     = Raise (pg_error SecurityViolationError
                "Statement type Subquery is not allowed. Only SELECT queries are permitted."
                []).
Proof.
  repeat split; reflexivity.
Qed.

(** C4 (counterexample).  With [max_join_tables = 3], in
    [SELECT 1 FROM a, b WHERE a.x IN (SELECT c.x FROM c, d)] each of the two
    SELECTs references two tables directly, and the query is rejected for
    joining four: the tables of the nested SELECT count for the outer one. *)
Lemma nested_tables_count_towards_outer_select :
  (forall sel, sel ∈ find_all Select Examples.ast_nested ->
     Z.of_nat (size (Claimed.direct_tables sel))
     <= self_max_join_tables Examples.validator_cap3)
  /\ validate_or_raise Examples.parse Examples.fnmatch_literal
       Examples.validator_cap3 Examples.sql_nested
     = Raise (pg_error SecurityViolationError
                "Query joins 4 tables, which exceeds the maximum allowed limit of 3 tables"
                []).
Proof.
  split; [|reflexivity].
  intros sel Hsel.
  change (find_all Select Examples.ast_nested)
    with [Examples.ast_nested; Examples.ast_inner] in Hsel.
  apply elem_of_cons in Hsel as [->|Hsel]; [by vm_compute|].
  apply list_elem_of_singleton in Hsel as ->. by vm_compute.
Qed.

(** C4 (amended).  The join check passes exactly when, for every SELECT of
    the statement, the distinct lower-cased names of the tables found
    anywhere under that SELECT, nested SELECTs included, number at most
    [max_join_tables]; its message cites the count and the cap.  The tables
    of a nested SELECT count for every SELECT around it.  The tables a
    SELECT references directly are among those counted, so an accepted query
    keeps every SELECT within the cap; and once the other checks pass, a
    SELECT or set operation is rejected with that message exactly when the
    join check fails. *)
Theorem join_limit_counts_the_subtree
    (fnmatch : string -> string -> bool) (self : SQLValidator)
    (statement : Expression) :
  (_check_join_limit self statement = None <->
   forall sel, sel ∈ find_all Select statement ->
     Z.of_nat (size (tables_under sel)) <= self_max_join_tables self)
  /\ (forall m, _check_join_limit self statement = Some m ->
        exists sel,
          sel ∈ find_all Select statement
          /\ self_max_join_tables self < Z.of_nat (size (tables_under sel))
          /\ m = "Query joins " ++ PyStr.of_Z (Z.of_nat (size (tables_under sel)))
                 ++ " tables, which exceeds the maximum allowed limit of "
                 ++ PyStr.of_Z (self_max_join_tables self) ++ " tables")
  /\ (forall sel n,
        n ∈ tables_under sel <->
        exists t, t ∈ walk sel /\ cls_of t = Table /\ name t <> ""
                  /\ n = PyStr.lower (name t))
  /\ (forall inner outer,
        inner ∈ walk outer -> tables_under inner ⊆ tables_under outer)
  /\ (validate_statement fnmatch self statement = Return tt ->
      cls_of statement <> Command ->
      forall sel, sel ∈ find_all Select statement ->
        Z.of_nat (size (Claimed.direct_tables sel))
        <= Z.of_nat (size (tables_under sel))
        <= self_max_join_tables self)
  /\ (cls_of statement <> Command -> cls_of statement <> With ->
      _check_statement_type statement = None ->
      _check_dangerous_functions self statement = None ->
      _check_blocked_tables fnmatch self statement = None ->
      _check_blocked_columns self statement = None ->
      _check_subquery_safety statement = None ->
      _check_where_clause_requirement self statement = None ->
      validate_statement fnmatch self statement
      = match _check_join_limit self statement with
        | None => Return tt
        | Some m => Raise (pg_error SecurityViolationError m [])
        end).
Proof.
  assert (_check_join_limit self statement = None <->
          forall sel, sel ∈ find_all Select statement ->
            Z.of_nat (size (tables_under sel)) <= self_max_join_tables self)
    as Hnone.
  { unfold _check_join_limit. rewrite first_error_None.
    split; intros H sel Hsel; specialize (H sel Hsel).
    - destruct (Z.gtb_spec (Z.of_nat (size (tables_under sel)))
                  (self_max_join_tables self)); [discriminate | lia].
    - destruct (Z.gtb_spec (Z.of_nat (size (tables_under sel)))
                  (self_max_join_tables self)); [lia | done]. }
  split; [exact Hnone|]. split; [|split; [|split; [|split]]].
  - unfold _check_join_limit. intros m (sel & Hsel & Hm)%first_error_Some.
    exists sel. split; [done|].
    destruct (Z.gtb_spec (Z.of_nat (size (tables_under sel)))
                (self_max_join_tables self)); [|discriminate].
    split; [lia | congruence].
  - intros sel n. apply TreeFacts.elem_of_tables_under.
  - apply TreeFacts.tables_under_nested.
  - intros Hv Hc sel Hsel.
    assert (_check_join_limit self statement = None) as Hj.
    { unfold validate_statement in Hv.
      rewrite isinstance_exp_singleton in Hv.
      rewrite bool_decide_eq_false_2 in Hv by done.
      destruct (isinstance_exp statement [With]);
        [destruct (this statement); [|discriminate]|];
        rewrite first_violation_Return in Hv; apply Hv;
        do 6 right; by left. }
    split; [|by apply Hnone].
    apply Nat2Z.inj_le, subseteq_size, TreeFacts.direct_tables_subseteq.
  - intros Hc Hw H1 H2 H3 H4 H5 H6. unfold validate_statement.
    rewrite !isinstance_exp_singleton.
    rewrite !bool_decide_eq_false_2 by done.
    rewrite H1, H2, H3, H4, H5, H6. simpl.
    by destruct (_check_join_limit self statement).
Qed.

(** C5.  An input that parses as one EXPLAIN command is accepted as it is
    when [allow_explain] holds, whatever follows the keyword, and is refused
    with "EXPLAIN statements are not allowed" otherwise. *)
Theorem explain_is_accepted_unchecked
    (parse : string -> Result (list (option Expression)))
    (fnmatch : string -> string -> bool) (self : SQLValidator)
    (sql : string) (statement : Expression) :
  PyStr.blank sql = false ->
  parse sql = Return [Some statement] ->
  cls_of statement = Command ->
  cmd_name statement = "EXPLAIN" ->
  validate_or_raise parse fnmatch self sql
  = if self_allow_explain self then Return tt
    else Raise (pg_error SecurityViolationError
                  "EXPLAIN statements are not allowed" []).
Proof.
  intros Hb Hp Hc He. unfold validate_or_raise. rewrite Hb, Hp. simpl.
  unfold validate_statement. rewrite isinstance_exp_singleton.
  rewrite bool_decide_eq_true_2 by done. rewrite He.
  by destruct (self_allow_explain self).
Qed.

(** [EXPLAIN DELETE FROM t] is accepted when EXPLAIN is allowed and refused
    when it is not. *)
Lemma explain_delete_witness :
  validate_or_raise Examples.parse Examples.fnmatch_literal
    (Examples.validator_explain true) Examples.sql_explain = Return tt
  /\ validate_or_raise Examples.parse Examples.fnmatch_literal
       (Examples.validator_explain false) Examples.sql_explain
     = Raise (pg_error SecurityViolationError
                "EXPLAIN statements are not allowed" []).
Proof.
  split.
  - apply (explain_is_accepted_unchecked Examples.parse Examples.fnmatch_literal
             (Examples.validator_explain true) Examples.sql_explain
             Examples.ast_explain); reflexivity.
  - apply (explain_is_accepted_unchecked Examples.parse Examples.fnmatch_literal
             (Examples.validator_explain false) Examples.sql_explain
             Examples.ast_explain); reflexivity.
Defined.

(** C10.  [validate] answers [(True, None)] exactly when [validate_or_raise]
    returns; when [validate_or_raise] raises, the error is a [SQLParseError]
    or a [SecurityViolationError] and [validate] answers [(False, m)] with
    its message; so [validate] returns on every input. *)
Theorem validate_reflects_validate_or_raise
    (parse : string -> Result (list (option Expression)))
    (fnmatch : string -> string -> bool) (self : SQLValidator) (sql : string) :
  (validate parse fnmatch self sql = Return (true, None)
   <-> validate_or_raise parse fnmatch self sql = Return tt)
  /\ (forall e, validate_or_raise parse fnmatch self sql = Raise e ->
        (exc_class e = SQLParseError \/ exc_class e = SecurityViolationError)
        /\ validate parse fnmatch self sql = Return (false, Some (exc_message e)))
  /\ (exists r, validate parse fnmatch self sql = Return r).
Proof.
  unfold validate.
  destruct (validate_or_raise parse fnmatch self sql) as [[]|e] eqn:H.
  - split; [done|]. split; [discriminate | by eexists].
  - pose proof (validate_or_raise_raises _ _ _ _ _ H) as He.
    rewrite (validator_error_isinstance _ He).
    split; [split; discriminate|].
    split; [|by eexists].
    intros e' [= <-]. done.
Qed.

(** ** The retry policy *)

Module RetryFacts.
Import Retry.

Lemma Qltb_true a b : Qltb a b = true <-> (a < b)%Q.
Proof.
  unfold Qltb. rewrite negb_true_iff, <- not_true_iff_false, Qle_bool_iff.
  split; [apply Qnot_le_lt | apply Qlt_not_le].
Qed.

Lemma Qltb_false a b : Qltb a b = false <-> (b <= a)%Q.
Proof. unfold Qltb. by rewrite negb_false_iff, Qle_bool_iff. Qed.

(** The constructor returns exactly on the valid parameters. *)
Lemma init_Return m i b M r config :
  init m i b M r = Return config <->
  (1 <= m /\ (0 <= i)%Q /\ (1 <= b)%Q /\ (i <= M)%Q)
  /\ config = {| max_attempts := m; initial_delay := i; backoff_factor := b;
                 max_delay := M; retriable_exceptions := r |}.
Proof.
  unfold init.
  destruct (Z.ltb_spec m 1);
    [split; [discriminate | intros [(? & _) _]; lia]|].
  destruct (Qltb i 0) eqn:Hi;
    [apply Qltb_true in Hi; split;
       [discriminate | intros [(_ & ?%Qle_not_lt & _) _]; done]|].
  destruct (Qltb b 1) eqn:Hb;
    [apply Qltb_true in Hb; split;
       [discriminate | intros [(_ & _ & ?%Qle_not_lt & _) _]; done]|].
  destruct (Qltb M i) eqn:HM;
    [apply Qltb_true in HM; split;
       [discriminate | intros [(_ & _ & _ & ?%Qle_not_lt) _]; done]|].
  apply Qltb_false in Hi, Hb, HM.
  split; [intros [= <-]; done | intros [_ ->]; done].
Qed.


Lemma calculate_delay_le_max config i :
  (calculate_delay config i <= max_delay config)%Q.
Proof. apply Q.le_min_r. Qed.


Section Scripted.

Context {A : Type}.
Variable config : RetryConfig.
Variable outcomes : nat -> Result A.



End Scripted.

End RetryFacts.

Import Retry RetryFacts.



(** The delays of the docstring of [calculate_delay]: 1, 2, 4, 8, and 10
    once capped. *)
Example calculate_delay_docstring :
  map (calculate_delay Examples.retry_doc) [0; 1; 2; 3; 4; 5]
  = [1%Q; 2%Q; 4%Q; 8%Q; 10%Q; 10%Q].
Proof. reflexivity. Qed.


(** ** The orchestrator *)

Module OrchestratorFacts.
Import Orchestrator.

Section Facts.

Context {Breaker Schema Pool : Type}.
Variable self : QueryOrchestrator Breaker Schema Pool.

(** What the generation loop returns was accepted by the validator. *)
Lemma generate_loop_Return question schema remaining :
  forall attempt previous_sql error_feedback (s s' : State Breaker) sql v tokens,
    generate_loop self question schema remaining attempt previous_sql
      error_feedback s = (Return (sql, v, tokens), s') ->
    v = validation_ok /\ tokens = None
    /\ Orchestrator.validate_or_raise (deps self) sql = Return tt.
Proof.
  induction remaining as [|remaining IH]; intros attempt prev fb s s' sql v tokens.
  - discriminate.
  - cbn [generate_loop call_generate].
    destruct (generate _ _ _ _ _ _) as [generated|e].
    2:{ destruct (isinstance e _); discriminate. }
    destruct (validate_or_raise (deps self) generated) as [[]|e] eqn:Hv.
    + intros [= <- <- <- _]. done.
    + destruct (isinstance e [SecurityViolationError; SQLParseError]).
      * destruct (attempt <? max_retries self); [apply IH | discriminate].
      * destruct (isinstance e _); discriminate.
Qed.

Lemma generate_sql_with_retry_Return question schema (s s' : State Breaker) sql v tokens :
  _generate_sql_with_retry self question schema s = (Return (sql, v, tokens), s') ->
  v = validation_ok /\ tokens = None
  /\ Orchestrator.validate_or_raise (deps self) sql = Return tt.
Proof.
  unfold _generate_sql_with_retry.
  destruct (allow_request _ _) as [admitted b].
  destruct admitted; [apply generate_loop_Return | discriminate].
Qed.

(** The responses the body of [execute_query] returns by itself. *)
Lemma execute_query_body_Return request (s s' : State Breaker) r :
  execute_query_body self request s = (Return r, s') ->
  (max_question_length self < Z.of_nat (String.length (question request))
   /\ r = too_long self request)
  \/ (exists sql,
        Orchestrator.validate_or_raise (deps self) sql = Return tt
        /\ ((return_type request = SQL /\ r = sql_only sql)
            \/ (return_type request = RESULT
                /\ exists results total,
                     let score :=
                       _validate_results_safely self (question request) sql
                         results total in
                     (score < min_confidence_score self
                      /\ r = low_confidence self sql score)
                     \/ (min_confidence_score self <= score
                         /\ r = answered self sql results score)))).
Proof.
  unfold execute_query_body.
  destruct (Z.gtb_spec (Z.of_nat (String.length (question request)))
              (max_question_length self)) as [Hlen|Hlen].
  { intros [= <- _]. left. split; [lia | done]. }
  destruct (_resolve_database self (database request)) as [name|e]; [|discriminate].
  match goal with
  | |- context [match ?loaded with Return _ => _ | Raise _ => _ end] =>
      destruct loaded as [schema|e]; [|discriminate]
  end.
  destruct (_generate_sql_with_retry _ _ _ _) as [[[[sql v] tokens]|e] s1] eqn:Hgen;
    [|discriminate].
  apply generate_sql_with_retry_Return in Hgen as (-> & -> & Hvalid).
  intros H. right. exists sql. split; [done|].
  destruct (return_type request).
  - injection H as <- _. by left.
  - right. split; [done|].
    destruct (get_executor _ _); [|discriminate].
    destruct (_execute_with_resilience _ _ _) as [[[results total]|e] s2];
      [|discriminate].
    exists results, total. simpl.
    destruct (Z.ltb_spec (_validate_results_safely self (question request) sql
                            results total) (min_confidence_score self));
      injection H as <- _; [left | right]; done.
Qed.

(** The [except] handlers answer with a failure that carries nothing but
    the error. *)
Lemma execute_query_handlers request (s s' : State Breaker) e :
  execute_query_body self request s = (Raise e, s') ->
  exists detail, (execute_query self request s).1 = failure detail.
Proof.
  unfold execute_query. intros ->.
  destruct (isinstance e [PgMcpError]); eauto.
Qed.


End Facts.

End OrchestratorFacts.

Import Orchestrator OrchestratorFacts.

(** The orchestrator of the scenarios is the one the constructor builds
    from [max_retries = 2], [retry_delay = 1] and [backoff_factor = 2]. *)
Example orchestrator_constructed :
  Orchestrator.init
    (Examples.collaborators Examples.sql_qualified (fun _ => Examples.one_row)
       (Return 90))
    [("db", tt)] 2 1 2 5000 70 true
  = Return (Examples.orchestrator ["db"] (fun _ => Examples.one_row) (Return 90)).
Proof. reflexivity. Qed.






(** The happy path in SQL mode, and an execution that keeps failing after
    the SQL was generated: the failure carries no SQL. *)
Example sql_only_and_failed_execution :
  (execute_query
     (Examples.orchestrator ["db"] (fun _ => Examples.one_row) (Return 90))
     (Examples.request None SQL) Examples.state0).1
  = sql_only Examples.sql_qualified
  /\ execute_query
       (Examples.orchestrator ["db"] (fun _ => Raise Examples.db_error) (Return 90))
       (Examples.request None RESULT) Examples.state0
     = (failure
          {| code := DATABASE_ERROR;
             message := "Database execution failed after 2 attempts";
             details := [("last_error", DStr "connection lost")] |},
        {| breaker := 2%nat; gen_calls := 1; exec_calls := 2; slept := [1%Q] |}).
Proof. split; reflexivity. Qed.


(** ** What the validator never accepts *)

Module AcceptedFacts.
Import Sqlglot SqlValidator ValidatorFacts.


(** An accepted statement that is no command passed the six checks run on
    the whole statement. *)
Lemma accepted_checks_pass fnmatch self statement :
  validate_statement fnmatch self statement = Return tt ->
  cls_of statement <> Command ->
  _check_dangerous_functions self statement = None
  /\ _check_blocked_tables fnmatch self statement = None
  /\ _check_blocked_columns self statement = None
  /\ _check_subquery_safety statement = None
  /\ _check_where_clause_requirement self statement = None
  /\ _check_join_limit self statement = None.
Proof.
  intros Hv Hc. unfold validate_statement in Hv.
  rewrite isinstance_exp_singleton in Hv.
  rewrite bool_decide_eq_false_2 in Hv by done.
  destruct (isinstance_exp statement [With]);
    [destruct (this statement); [|discriminate]|];
    rewrite first_violation_Return in Hv;
    repeat split; apply Hv; set_solver.
Qed.



Lemma check_blocked_columns_None self statement :
  _check_blocked_columns self statement = None <->
  forall c, c ∈ walk statement -> cls_of c = Column ->
    (PyStr.lower (name c) ∉ self_blocked_columns_simple self)
    /\ (table c <> "" ->
        forall cols,
          (self_blocked_columns_map self !! PyStr.lower (table c)) = Some cols ->
          forall col, col ∈ cols -> PyStr.lower (name c) <> PyStr.lower col).
Proof.
  unfold _check_blocked_columns.
  destruct (bool_decide (self_blocked_columns_map self = ∅)
            && bool_decide (self_blocked_columns_simple self = ∅)) eqn:Hempty.
  { apply andb_true_iff in Hempty as [Hm Hs].
    apply bool_decide_eq_true in Hm, Hs. split; [|done].
    intros _ c _ _. rewrite Hm, Hs. split; [set_solver|].
    intros _ cols. by rewrite lookup_empty. }
  clear Hempty. rewrite first_error_None.
  assert (forall c,
            (if bool_decide (PyStr.lower (name c) ∈ self_blocked_columns_simple self)
             then Some ("Access to column '" ++ PyStr.lower (name c)
                        ++ "' is not allowed")
             else
               if PyStr.eqb (table c) "" then None
               else
                 match self_blocked_columns_map self !! PyStr.lower (table c) with
                 | Some cols =>
                     if bool_decide
                          (PyStr.lower (name c)
                             ∈ (list_to_set (map PyStr.lower cols) : gset string))
                     then Some ("Access to column '" ++ PyStr.lower (table c) ++ "."
                                ++ PyStr.lower (name c) ++ "' is not allowed")
                     else None
                 | None => None
                 end) = None
            <-> (PyStr.lower (name c) ∉ self_blocked_columns_simple self)
                /\ (table c <> "" ->
                    forall cols,
                      (self_blocked_columns_map self !! PyStr.lower (table c))
                      = Some cols ->
                      forall col, col ∈ cols ->
                        PyStr.lower (name c) <> PyStr.lower col)) as Hbody.
  { intros c. case_bool_decide as Hsimple; [split; [discriminate | tauto]|].
    unfold PyStr.eqb. case_bool_decide as Ht.
    { split; [|done]. intros _. split; [done|]. done. }
    destruct (self_blocked_columns_map self !! PyStr.lower (table c)) as [cols|];
      [|split; [intros _; split; [done | discriminate] | done]].
    case_bool_decide as Hcol.
    - split; [discriminate|]. intros [_ H]. exfalso.
      apply elem_of_list_to_set, list_elem_of_In, in_map_iff in Hcol
        as (col & Heq & Hin).
      apply (H Ht cols eq_refl col); [by apply list_elem_of_In | done].
    - split; [|done]. intros _. split; [done|].
      intros _ cols' [= <-] col Hin Heq. apply Hcol.
      apply elem_of_list_to_set, list_elem_of_In, in_map_iff.
      exists col. split; [done | by apply list_elem_of_In]. }
  split.
  - intros H c Hc Hcls. apply Hbody, H, TreeFacts.elem_of_find_all. done.
  - intros H c [Hc Hcls]%TreeFacts.elem_of_find_all. apply Hbody. by apply H.
Qed.




End AcceptedFacts.

Import Sqlglot SqlValidator ValidatorFacts AcceptedFacts.


(** [SELECT PG_SLEEP(5)] is rejected by a validator with no configured
    function. *)
Example pg_sleep_in_capitals_is_rejected :
  validate_statement Examples.fnmatch_literal Examples.validator_cap3
    Examples.ast_sleep
  = Raise (pg_error SecurityViolationError
             "Function 'pg_sleep' is blocked for security reasons" []).
Proof. reflexivity. Qed.


(** X5.  The column check passes exactly when every column node of the
    statement has a lower-cased name outside the legacy list and, when it is
    qualified, outside the lower-cased columns the map gives for its
    lower-cased qualifier; so an accepted statement other than a command has
    no column of the legacy list and no blocked column under a qualifier that
    is a key of the map. *)
Theorem blocked_columns_are_never_accepted
    (fnmatch : string -> string -> bool) (self : SQLValidator)
    (statement : Expression) :
  (_check_blocked_columns self statement = None
   <-> forall c, c ∈ walk statement -> cls_of c = Column ->
         (PyStr.lower (name c) ∉ self_blocked_columns_simple self)
         /\ (table c <> "" ->
             forall cols,
               (self_blocked_columns_map self !! PyStr.lower (table c))
               = Some cols ->
               forall col, col ∈ cols ->
                 PyStr.lower (name c) <> PyStr.lower col))
  /\ (validate_statement fnmatch self statement = Return tt ->
      cls_of statement <> Command ->
      forall c, c ∈ walk statement -> cls_of c = Column ->
        (PyStr.lower (name c) ∉ self_blocked_columns_simple self)
        /\ (table c <> "" ->
            forall cols,
              (self_blocked_columns_map self !! PyStr.lower (table c))
              = Some cols ->
              forall col, col ∈ cols ->
                PyStr.lower (name c) <> PyStr.lower col)).
Proof.
  split; [apply check_blocked_columns_None|].
  intros Hv Hc. apply check_blocked_columns_None.
  by destruct (accepted_checks_pass fnmatch self statement Hv Hc) as (_ & _ & ? & _).
Qed.



(** A statement that fails the statement-kind check is rejected with the
    message of that check, before any other check is consulted. *)
Lemma statement_type_is_checked_first fnmatch self statement m :
  cls_of statement <> Command -> cls_of statement <> With ->
  _check_statement_type statement = Some m ->
  validate_statement fnmatch self statement
  = Raise (pg_error SecurityViolationError m []).
Proof.
  intros Hc Hw Hm. unfold validate_statement.
  rewrite !isinstance_exp_singleton.
  rewrite !bool_decide_eq_false_2 by done.
  by rewrite Hm.
Qed.

(** X8.  A statement of a writing or administrative kind (INSERT, UPDATE,
    DELETE, DROP, CREATE, ALTER, GRANT, REVOKE, SET, USE, MERGE) is rejected
    with "KIND statements are not allowed. Only SELECT queries are
    permitted.", whatever it contains and however the validator is
    configured; the same holds when it is the body of a WITH. *)
Theorem writing_statements_are_rejected
    (fnmatch : string -> string -> bool) (self : SQLValidator)
    (c : ExpClass) (args : list (string * Arg Expression)) :
  c ∈ [Insert; Update; Delete; Drop; Create; Alter; Grant; Revoke; SetStmt;
       Use; Merge] ->
  validate_statement fnmatch self (Exp c args)
  = Raise (pg_error SecurityViolationError
             (PyStr.upper (class_name c)
              ++ " statements are not allowed. Only SELECT queries are permitted.")
             [])
  /\ (forall with_args,
        this (Exp With with_args) = Some (Exp c args) ->
        validate_statement fnmatch self (Exp With with_args)
        = Raise (pg_error SecurityViolationError
                   (PyStr.upper (class_name c)
                    ++ " statements are not allowed. Only SELECT queries are permitted.")
                   [])).
Proof.
  intros Hc.
  assert (_check_statement_type (Exp c args)
          = Some (PyStr.upper (class_name c)
                  ++ " statements are not allowed. Only SELECT queries are permitted."))
    as Hm.
  { repeat (apply elem_of_cons in Hc as [->|Hc]; [reflexivity|]).
    by apply elem_of_nil in Hc. }
  split.
  - apply statement_type_is_checked_first; [| |done];
      repeat (apply elem_of_cons in Hc as [->|Hc]; [discriminate|]);
      by apply elem_of_nil in Hc.
  - intros with_args Hthis. unfold validate_statement.
    rewrite !isinstance_exp_singleton.
    rewrite bool_decide_eq_false_2 by discriminate.
    rewrite bool_decide_eq_true_2 by reflexivity.
    by rewrite Hthis, Hm.
Qed.

(** [DELETE FROM users WHERE id = 1] is rejected as a DELETE. *)
Lemma delete_is_rejected_witness :
  validate_statement Examples.fnmatch_literal Examples.validator_cap3
    Examples.ast_delete
  = Raise (pg_error SecurityViolationError
             "DELETE statements are not allowed. Only SELECT queries are permitted."
             []).
Proof.
  apply (writing_statements_are_rejected Examples.fnmatch_literal
           Examples.validator_cap3 Delete (args_of Examples.ast_delete)).
  apply elem_of_cons. right. apply elem_of_cons. right. apply elem_of_cons.
  by left.
Defined.

(** X9.  Whatever the parser and the configuration: an empty or blank input
    is refused with a [SQLParseError] before the parser is consulted; a
    failure of the parser becomes a [SQLParseError] that carries its message
    and has it as cause; two or more statements are refused with a
    [SecurityViolationError], whatever the statements are; and an input with
    no statement is refused with a [SQLParseError]. *)
Theorem degenerate_inputs_are_rejected
    (parse : string -> Result (list (option Expression)))
    (fnmatch : string -> string -> bool) (self : SQLValidator) (sql : string) :
  (PyStr.blank sql = true ->
   validate_or_raise parse fnmatch self sql
   = Raise (pg_error SQLParseError "SQL query cannot be empty" []))
  /\ (PyStr.blank sql = false ->
      (forall e, parse sql = Raise e ->
         validate_or_raise parse fnmatch self sql
         = Raise (raise_from
                    (pg_error SQLParseError
                       ("Failed to parse SQL: " ++ exc_message e) []) e))
      /\ (forall first second rest,
            parse sql = Return (first :: second :: rest) ->
            validate_or_raise parse fnmatch self sql
            = Raise (pg_error SecurityViolationError
                       "Multiple statements not allowed. Only single SELECT queries are permitted."
                       []))
      /\ (parse sql = Return [] \/ parse sql = Return [None] ->
          validate_or_raise parse fnmatch self sql
          = Raise (pg_error SQLParseError "No valid SQL statement found" []))).
Proof.
  split.
  - intros Hb. unfold validate_or_raise. by rewrite Hb.
  - intros Hb. unfold validate_or_raise. rewrite Hb. split; [|split].
    + by intros e ->.
    + by intros first second rest ->.
    + by intros [-> | ->].
Qed.


(** The tables of [SELECT * FROM Orders o JOIN users ...], and of a query
    that names a table twice. *)
Example extract_tables_examples :
  extract_tables (fun _ => Return Examples.ast_orders) "q" = Return ["orders"; "users"]
  /\ extract_tables (fun _ => Return Examples.ast_nested) "q"
     = Return ["a"; "b"; "c"; "d"].
Proof. split; reflexivity. Qed.

(** ** More on the retry policy *)

Module RetryMoreFacts.
Import Retry RetryFacts.

Section Scripted.

Context {A : Type}.
Variable config : RetryConfig.
Variable outcomes : nat -> Result A.

(** The loop stops at the first invocation with a final outcome, and ends
    as that invocation did. *)
Lemma wrapper_loop_stops k :
  final config (outcomes k) ->
  forall remaining t last,
    Z.of_nat remaining + Z.of_nat (calls t) = max_attempts config ->
    (calls t <= k < calls t + remaining)%nat ->
    (forall i, (calls t <= i < k)%nat -> fails_retriably config outcomes i) ->
    wrapper_loop record_sleep config (scripted outcomes) remaining
      (Z.of_nat (calls t)) last t
    = (outcomes k,
       {| calls := S k;
          sleeps := (sleeps t ++ delays_from config (calls t) (k - calls t))%list |}).
Proof.
  intros Hk. induction remaining as [|remaining IH]; intros t last Hm Hr Hf.
  - lia.
  - cbn [wrapper_loop scripted]. destruct (decide (calls t = k)) as [Heq|Hne].
    + rewrite Heq. rewrite Nat.sub_diag. unfold delays_from. cbn [seq map].
      rewrite app_nil_r. unfold final in Hk.
      destruct (outcomes k) as [a|e]; [done | by rewrite Hk].
    + destruct (Hf (calls t)) as (e0 & -> & ->); [lia|].
      destruct (Z.eqb_spec (Z.of_nat (calls t)) (max_attempts config - 1)); [lia|].
      set (t' := record_sleep _ _).
      replace (Z.of_nat (calls t) + 1) with (Z.of_nat (calls t'))
        by (unfold t'; simpl; lia).
      rewrite IH;
        [| unfold t'; simpl; lia | unfold t'; simpl; lia
         | unfold t'; simpl; intros; apply Hf; lia].
      subst t'. cbn [calls sleeps record_sleep].
      f_equal. f_equal.
      replace (k - calls t)%nat with (S (k - S (calls t))) by lia.
      unfold delays_from. cbn [seq map]. by rewrite <- app_assoc.
Qed.


End Scripted.

(** Under an accepted configuration no delay is negative. *)
Lemma calculate_delay_nonneg config n :
  (0 <= initial_delay config)%Q -> (1 <= backoff_factor config)%Q ->
  (0 <= max_delay config)%Q ->
  (0 <= calculate_delay config n)%Q.
Proof.
  intros Hi Hb HM. unfold calculate_delay. apply Q.min_glb; [|done].
  apply Qmult_le_0_compat; [done|].
  apply Qpower_0_le. by apply (Qle_trans _ 1).
Qed.

(** Every delay of an accepted configuration lies between 0 and
    [max_delay]. *)
Lemma delays_bounded config k :
  (0 <= initial_delay config)%Q -> (1 <= backoff_factor config)%Q ->
  (initial_delay config <= max_delay config)%Q ->
  Forall (fun d => 0 <= d <= max_delay config)%Q (delays config k).
Proof.
  intros Hi Hb HM. unfold delays, delays_from. apply Forall_forall.
  intros d (n & <- & _)%list_elem_of_In%in_map_iff. split.
  - apply calculate_delay_nonneg; [done | done |].
    by apply (Qle_trans _ (initial_delay config)).
  - apply calculate_delay_le_max.
Qed.

End RetryMoreFacts.

Import Retry RetryFacts RetryMoreFacts.

(** X11.  Under a configuration the constructor accepted, when the first
    [k] invocations fail with retriable errors and invocation [k], one of
    the [max_attempts] allowed, returns, the wrapper returns that result
    after exactly [k + 1] invocations, having slept
    [calculate_delay(0), ..., calculate_delay(k - 1)] in between; an
    operation that returns at once is called once and nothing is slept. *)
Theorem with_retry_returns_first_success {A : Type}
    (m : Z) (i b M : Q) (r : list ExcClass) (config : RetryConfig)
    (outcomes : nat -> Result A) (k : nat) (a : A) :
  Retry.init m i b M r = Return config ->
  Z.of_nat k < m ->
  (forall j, (j < k)%nat ->
     exists e, outcomes j = Raise e /\ isinstance e r = true) ->
  outcomes k = Return a ->
  run config outcomes
  = (Return a, {| calls := S k; sleeps := delays config k |}).
Proof.
  intros [(Hm & _) ->]%init_Return Hk Hf Ha.
  unfold run, with_retry.
  pose proof (wrapper_loop_stops
                {| max_attempts := m; initial_delay := i; backoff_factor := b;
                   max_delay := M; retriable_exceptions := r |}
                outcomes k) as Hloop.
  rewrite Ha in Hloop.
  specialize (Hloop I (Z.to_nat m) trace0 None).
  simpl in Hloop. change (Z.of_nat 0) with 0 in Hloop. simpl.
  rewrite Hloop; [| lia | lia | intros j Hj; apply Hf; lia].
  by rewrite Nat.sub_0_r.
Qed.

(** Two [DatabaseError]s, then a result: three calls and the delays 1 and
    2. *)
Lemma third_attempt_succeeds_witness :
  run Examples.retry_db
    (fun n => if (n <? 2)%nat then Raise Examples.db_error else Return 7)
  = (Return 7, {| calls := 3; sleeps := delays Examples.retry_db 2 |}).
Proof.
  apply (with_retry_returns_first_success 3 1 2 60 [DatabaseError]
           Examples.retry_db
           (fun n => if (n <? 2)%nat then Raise Examples.db_error else Return 7)
           2 7 eq_refl).
  - lia.
  - intros j Hj. exists Examples.db_error.
    destruct j as [|[|j]]; [by split | by split | lia].
  - reflexivity.
Defined.



(** X13.  Under a configuration the constructor accepted, no delay is
    negative, the delay before the first retry is [initial_delay] itself,
    and with [backoff_factor = 1] every delay is [initial_delay]. *)
Theorem first_delay_is_initial_delay
    (m : Z) (i b M : Q) (r : list ExcClass) (config : RetryConfig) :
  Retry.init m i b M r = Return config ->
  (forall n, 0 <= calculate_delay config n)%Q
  /\ (calculate_delay config 0 == i)%Q
  /\ ((b == 1)%Q -> forall n, (calculate_delay config n == i)%Q).
Proof.
  intros [(Hm & Hi & Hb & HM) ->]%init_Return.
  set (config := {| max_attempts := m |}).
  split; [|split].
  - intros n. apply (calculate_delay_nonneg config); [done | done |].
    by apply (Qle_trans _ i).
  - unfold calculate_delay. simpl. rewrite Qmult_1_r. by apply Q.min_l.
  - intros Hb1 n. unfold calculate_delay. simpl.
    rewrite Hb1, Qpower_1, Qmult_1_r. by apply Q.min_l.
Qed.

(** The default configuration: the first retry waits one second. *)
Lemma default_first_delay_witness :
  (calculate_delay Examples.retry_db 0 == 1)%Q.
Proof.
  exact (proj1 (proj2 (first_delay_is_initial_delay 3 1 2 60 [DatabaseError]
                         Examples.retry_db eq_refl))).
Defined.

(** ** More on the orchestrator *)

Module OrchestratorMoreFacts.
Import Retry RetryFacts RetryMoreFacts Orchestrator OrchestratorFacts.

(** What the constructor accepts; a delay above 30 is refused by the
    database retry configuration, whose [max_delay] is 30. *)
Lemma orchestrator_init_Return {Breaker Schema Pool : Type}
    (deps : Collaborators Breaker Schema Pool) (pools : list (string * Pool))
    (mr : Z) (d b : Q) (mql mcs : Z) (ve : bool)
    (self : QueryOrchestrator Breaker Schema Pool) :
  Orchestrator.init deps pools mr d b mql mcs ve = Return self <->
  (1 <= mr /\ (0 <= d)%Q /\ (1 <= b)%Q /\ (d <= 30)%Q)
  /\ self = {| deps := deps; pools := pools; max_retries := mr;
               max_question_length := mql; min_confidence_score := mcs;
               validation_enabled := ve;
               _llm_retry_config :=
                 {| max_attempts := mr; initial_delay := d;
                    backoff_factor := b; max_delay := 60;
                    retriable_exceptions := [LLMError] |};
               _db_retry_config :=
                 {| max_attempts := mr; initial_delay := d;
                    backoff_factor := b; max_delay := 30;
                    retriable_exceptions := [DatabaseError] |} |}.
Proof.
  unfold Orchestrator.init. split.
  - destruct (Retry.init mr d b 60 [LLMError]) as [llm|e] eqn:Hllm; [|discriminate].
    destruct (Retry.init mr d b 30 [DatabaseError]) as [db|e] eqn:Hdb; [|discriminate].
    apply RetryFacts.init_Return in Hllm as [_ ->].
    apply RetryFacts.init_Return in Hdb as [(? & ? & ? & ?) ->].
    intros [= <-]. done.
  - intros [(Hm & Hd & Hb & HM) ->].
    assert (Retry.init mr d b 60 [LLMError]
            = Return {| max_attempts := mr; initial_delay := d;
                        backoff_factor := b; max_delay := 60;
                        retriable_exceptions := [LLMError] |}) as ->.
    { apply RetryFacts.init_Return. split; [|done]. repeat split; try done.
      apply (Qle_trans _ 30); [done|]. by vm_compute. }
    assert (Retry.init mr d b 30 [DatabaseError]
            = Return {| max_attempts := mr; initial_delay := d;
                        backoff_factor := b; max_delay := 30;
                        retriable_exceptions := [DatabaseError] |}) as ->.
    { apply RetryFacts.init_Return. done. }
    done.
Qed.

Section Facts.

Context {Breaker Schema Pool : Type}.
Variable self : QueryOrchestrator Breaker Schema Pool.

Lemma surfaced_known e :
  isinstance (surfaced e) [LLMError; SecurityViolationError; SQLParseError] = true.
Proof.
  unfold surfaced.
  destruct (isinstance e _) eqn:He; [done|]. by destruct e.
Qed.

Lemma validation_classes_known e :
  isinstance e [SecurityViolationError; SQLParseError] = true ->
  isinstance e [LLMError; SecurityViolationError; SQLParseError] = true.
Proof.
  unfold isinstance. cbn [existsb]. intros ->. by rewrite orb_true_r.
Qed.

(** The generation loop calls the generator at most once per round, never
    executes or sleeps, and raises what the generator or the validator
    raised, surfaced. *)
Lemma generate_loop_effects question schema remaining :
  forall attempt previous_sql error_feedback (s : State Breaker),
    (0 < remaining)%nat ->
    Z.of_nat remaining + attempt = max_retries self + 1 ->
    exec_calls
      (generate_loop self question schema remaining attempt previous_sql
         error_feedback s).2 = exec_calls s
    /\ slept
         (generate_loop self question schema remaining attempt previous_sql
            error_feedback s).2 = slept s
    /\ (gen_calls s
        < gen_calls
            (generate_loop self question schema remaining attempt previous_sql
               error_feedback s).2
        <= gen_calls s + remaining)%nat
    /\ forall e,
         (generate_loop self question schema remaining attempt previous_sql
            error_feedback s).1 = Raise e ->
         (exists n prev fb e0,
            generate (deps self) n question schema prev fb = Raise e0
            /\ e = surfaced e0)
         \/ (exists sql e0,
               Orchestrator.validate_or_raise (deps self) sql = Raise e0
               /\ e = surfaced e0
               /\ (isinstance e0 [SecurityViolationError; SQLParseError] = true ->
                   gen_calls
                     (generate_loop self question schema remaining attempt
                        previous_sql error_feedback s).2
                   = (gen_calls s + remaining)%nat)).
Proof.
  induction remaining as [|remaining IH]; intros attempt prev fb s Hpos Hm; [lia|].
  cbn [generate_loop call_generate].
  destruct (generate (deps self) (gen_calls s) question schema prev fb)
    as [generated|e0] eqn:Hgen.
  2:{ destruct (isinstance e0 [LLMError; SecurityViolationError; SQLParseError])
        eqn:Hk; cbn [fst snd exec_calls slept gen_calls with_breaker];
        (split; [done|]; split; [done|]; split; [lia|]);
        intros e [= <-]; left; exists (gen_calls s), prev, fb, e0;
        (split; [done|]); unfold surfaced; by rewrite Hk. }
  destruct (Orchestrator.validate_or_raise (deps self) generated) as [[]|e0] eqn:Hv.
  { cbn [fst snd exec_calls slept gen_calls with_breaker].
    split; [done|]. split; [done|]. split; [lia|]. discriminate. }
  destruct (isinstance e0 [SecurityViolationError; SQLParseError]) eqn:Hvc.
  - destruct (Z.ltb_spec attempt (max_retries self)) as [Hlt|Hge].
    + set (s1 := {| breaker := breaker s; gen_calls := S (gen_calls s);
                    exec_calls := exec_calls s; slept := slept s |}).
      destruct (IH (attempt + 1) (Some generated) (Some (exc_message e0)) s1)
        as (He & Hs & Hg & Hr); [lia | lia |].
      split; [by rewrite He|]. split; [by rewrite Hs|].
      assert (gen_calls s1 = S (gen_calls s)) as Hs1 by done.
      split; [lia|].
      intros e Hres. destruct (Hr e Hres) as [?|(sql & e1 & ? & ? & Hall)];
        [by left | right].
      exists sql, e1. split; [done|]. split; [done|].
      intros Hc. rewrite (Hall Hc). lia.
    + cbn [fst snd exec_calls slept gen_calls with_breaker].
      split; [done|]. split; [done|]. split; [lia|].
      intros e [= <-]. right. exists generated, e0.
      split; [done|]. split.
      * unfold surfaced. by rewrite (validation_classes_known _ Hvc).
      * intros _. lia.
  - destruct (isinstance e0 [LLMError; SecurityViolationError; SQLParseError])
      eqn:Hk;
      cbn [fst snd exec_calls slept gen_calls with_breaker];
      (split; [done|]; split; [done|]; split; [lia|]);
      intros e [= <-]; right; exists generated, e0;
      (split; [done|]); (split; [unfold surfaced; by rewrite Hk | congruence]).
Qed.

(** The generation loop neither executes nor sleeps, from any round. *)
Lemma generate_loop_pure question schema remaining :
  forall attempt previous_sql error_feedback (s : State Breaker),
    exec_calls
      (generate_loop self question schema remaining attempt previous_sql
         error_feedback s).2 = exec_calls s
    /\ slept
         (generate_loop self question schema remaining attempt previous_sql
            error_feedback s).2 = slept s.
Proof.
  induction remaining as [|remaining IH]; intros attempt prev fb s; [done|].
  cbn [generate_loop call_generate].
  destruct (generate (deps self) (gen_calls s) question schema prev fb)
    as [generated|e0].
  2:{ by destruct (isinstance e0 _). }
  destruct (Orchestrator.validate_or_raise (deps self) generated) as [[]|e0];
    [done|].
  destruct (isinstance e0 [SecurityViolationError; SQLParseError]).
  - destruct (attempt <? max_retries self); [|done].
    destruct (IH (attempt + 1) (Some generated) (Some (exc_message e0))
                {| breaker := breaker s; gen_calls := S (gen_calls s);
                   exec_calls := exec_calls s; slept := slept s |}) as [-> ->].
    done.
  - by destruct (isinstance e0 _).
Qed.

Lemma generate_sql_with_retry_pure question schema (s : State Breaker) :
  exec_calls (_generate_sql_with_retry self question schema s).2 = exec_calls s
  /\ slept (_generate_sql_with_retry self question schema s).2 = slept s.
Proof.
  unfold _generate_sql_with_retry.
  destruct (allow_request (deps self) (breaker s)) as [[] b]; cbn [negb].
  - destruct (generate_loop_pure question schema
                (Z.to_nat (max_retries self + 1)) 0 None None
                (with_breaker (fun _ => b) s)) as [-> ->].
    done.
  - done.
Qed.

(** One protected execution: it raises only [DatabaseError]s, runs the
    executor at most once, and what it returns the executor returned. *)
Lemma execute_with_protection_effects sql (s : State Breaker) :
  gen_calls (_execute_with_protection self sql s).2 = gen_calls s
  /\ slept (_execute_with_protection self sql s).2 = slept s
  /\ (exec_calls s <= exec_calls (_execute_with_protection self sql s).2
      <= S (exec_calls s))%nat
  /\ (forall e, (_execute_with_protection self sql s).1 = Raise e ->
        isinstance e [DatabaseError] = true)
  /\ (forall r, (_execute_with_protection self sql s).1 = Return r ->
        execute (deps self) (exec_calls s) sql = Return r
        /\ exec_calls (_execute_with_protection self sql s).2 = S (exec_calls s)).
Proof.
  unfold _execute_with_protection.
  destruct (allow_request (deps self) (breaker s)) as [[] b]; cbn [negb].
  - cbn [with_breaker exec_calls gen_calls slept breaker].
    destruct (execute (deps self) (exec_calls s) sql) as [r|e] eqn:He.
    + cbn. repeat split; try done; try lia; by intros ? [= <-].
    + destruct (isinstance e [DatabaseError]) eqn:Hi; cbn;
        (repeat split; try done; try lia); by intros ? [= <-].
  - cbn. repeat split; try done; try lia. by intros ? [= <-].
Qed.

Section DbRetry.

Variable config : RetryConfig.
Hypothesis Hretriable : retriable_exceptions config = [DatabaseError].
Variable sql : string.

(** The retry loop around the protected execution. *)
Lemma execute_loop_effects remaining :
  forall (a : nat) last (s : State Breaker),
    (0 < remaining)%nat ->
    Z.of_nat remaining + Z.of_nat a = max_attempts config ->
    exists k,
      (k < remaining)%nat
      /\ gen_calls
           (wrapper_loop sleep config (_execute_with_protection self sql)
              remaining (Z.of_nat a) last s).2 = gen_calls s
      /\ slept
           (wrapper_loop sleep config (_execute_with_protection self sql)
              remaining (Z.of_nat a) last s).2
         = (slept s ++ delays_from config a k)%list
      /\ (exec_calls s
          <= exec_calls
               (wrapper_loop sleep config (_execute_with_protection self sql)
                  remaining (Z.of_nat a) last s).2
          <= exec_calls s + S k)%nat
      /\ (forall r,
            (wrapper_loop sleep config (_execute_with_protection self sql)
               remaining (Z.of_nat a) last s).1 = Return r ->
            exists n,
              execute (deps self) n sql = Return r
              /\ (exec_calls s <= n)%nat
              /\ exec_calls
                   (wrapper_loop sleep config (_execute_with_protection self sql)
                      remaining (Z.of_nat a) last s).2 = S n)
      /\ (forall x,
            (wrapper_loop sleep config (_execute_with_protection self sql)
               remaining (Z.of_nat a) last s).1 = Raise x ->
            S k = remaining
            /\ exists e,
                 isinstance e [DatabaseError] = true
                 /\ x = raise_from
                          (retry_exhausted_error (max_attempts config) e) e).
Proof.
  induction remaining as [|remaining IH]; intros a last s Hpos Hm; [lia|].
  cbn [wrapper_loop].
  destruct (execute_with_protection_effects sql s) as (Hg & Hs & He & Hraise & Hret).
  destruct (_execute_with_protection self sql s) as [[r|e] s1] eqn:Hp;
    cbn [fst snd] in Hg, Hs, He, Hraise, Hret.
  { exists 0%nat. cbn [fst snd]. unfold delays_from. cbn [seq map].
    rewrite app_nil_r. destruct (Hret r eq_refl) as [Hex Hn].
    split; [lia|]. split; [done|]. split; [done|]. split; [lia|].
    split; [|discriminate].
    intros ? [= <-]. exists (exec_calls s). split; [done|]. split; [lia | done]. }
  rewrite Hretriable, (Hraise e eq_refl).
  destruct (Z.eqb_spec (Z.of_nat a) (max_attempts config - 1)) as [Hl|Hl].
  { exists 0%nat. cbn [fst snd]. unfold delays_from. cbn [seq map].
    rewrite app_nil_r.
    split; [lia|]. split; [done|]. split; [done|]. split; [lia|].
    split; [discriminate|].
    intros ? [= <-]. split; [lia|]. exists e. split; [by apply Hraise | done]. }
  set (s2 := sleep (calculate_delay config (Z.of_nat a)) s1).
  assert (gen_calls s2 = gen_calls s1 /\ exec_calls s2 = exec_calls s1
          /\ slept s2 = (slept s1 ++ [calculate_delay config (Z.of_nat a)])%list)
    as (Hg2 & He2 & Hs2) by done.
  replace (Z.of_nat a + 1) with (Z.of_nat (S a)) by lia.
  destruct (IH (S a) (Some e) s2) as (k & Hk & Hgk & Hsk & Hek & Hretk & Hraisek);
    [lia | lia |].
  exists (S k). split; [lia|]. split; [congruence|]. split.
  { rewrite Hsk, Hs2, Hs. unfold delays_from. cbn [seq map].
    by rewrite <- app_assoc. }
  split; [lia|]. split.
  - intros r Hr. destruct (Hretk r Hr) as (n & ? & ? & ?).
    exists n. split; [done|]. split; [lia | done].
  - intros x Hx. destruct (Hraisek x Hx) as [? ?]. split; [lia | done].
Qed.

(** Behind a breaker that refuses every request the loop still uses all
    its attempts: it never reaches the executor, sleeps between the
    refusals, and ends exhausted. *)
Lemma refused_loop_effects remaining :
  (forall b, (allow_request (deps self) b).1 = false) ->
  forall (a : nat) last (s : State Breaker),
    (0 < remaining)%nat ->
    Z.of_nat remaining + Z.of_nat a = max_attempts config ->
    gen_calls
      (wrapper_loop sleep config (_execute_with_protection self sql)
         remaining (Z.of_nat a) last s).2 = gen_calls s
    /\ exec_calls
         (wrapper_loop sleep config (_execute_with_protection self sql)
            remaining (Z.of_nat a) last s).2 = exec_calls s
    /\ slept
         (wrapper_loop sleep config (_execute_with_protection self sql)
            remaining (Z.of_nat a) last s).2
       = (slept s ++ delays_from config a (remaining - 1))%list
    /\ exists e,
         (wrapper_loop sleep config (_execute_with_protection self sql)
            remaining (Z.of_nat a) last s).1
         = Raise (raise_from (retry_exhausted_error (max_attempts config) e) e)
         /\ exc_class e = DatabaseError
         /\ exc_message e
            = "Database service temporarily unavailable (circuit breaker open)".
Proof.
  intros Hopen.
  induction remaining as [|remaining IH]; intros a last s Hpos Hm; [lia|].
  cbn [wrapper_loop].
  assert (exists e s1,
            _execute_with_protection self sql s = (Raise e, s1)
            /\ gen_calls s1 = gen_calls s /\ exec_calls s1 = exec_calls s
            /\ slept s1 = slept s
            /\ isinstance e [DatabaseError] = true
            /\ exc_class e = DatabaseError
            /\ exc_message e
               = "Database service temporarily unavailable (circuit breaker open)")
    as (e & s1 & -> & Hg1 & He1 & Hs1 & Hi & Hc & Hmsg).
  { unfold _execute_with_protection. pose proof (Hopen (breaker s)) as Hb.
    destruct (allow_request (deps self) (breaker s)) as [admitted b].
    cbn [fst] in Hb. subst admitted. cbn [negb].
    eexists _, _. split; [reflexivity|]. done. }
  rewrite Hretriable, Hi.
  destruct (Z.eqb_spec (Z.of_nat a) (max_attempts config - 1)) as [Hl|Hl].
  { cbn [fst snd]. assert (remaining = 0%nat) as -> by lia.
    unfold delays_from. cbn [seq map Nat.sub]. rewrite app_nil_r.
    split; [done|]. split; [done|]. split; [done|].
    exists e. done. }
  replace (Z.of_nat a + 1) with (Z.of_nat (S a)) by lia.
  set (s2 := sleep (calculate_delay config (Z.of_nat a)) s1).
  assert (gen_calls s2 = gen_calls s1 /\ exec_calls s2 = exec_calls s1
          /\ slept s2 = (slept s1 ++ [calculate_delay config (Z.of_nat a)])%list)
    as (Hg2 & He2 & Hs2) by done.
  destruct (IH (S a) (Some e) s2) as (Hg & He & Hs & e' & Hr & Hc' & Hmsg');
    [lia | lia |].
  split; [congruence|]. split; [congruence|]. split.
  { rewrite Hs, Hs2, Hs1.
    replace (S remaining - 1)%nat with (S (remaining - 1)) by lia.
    unfold delays_from. cbn [seq map]. by rewrite <- app_assoc. }
  by exists e'.
Qed.

End DbRetry.

(** [_generate_sql_with_retry]: its calls, and the errors it raises. *)
Lemma generate_sql_with_retry_effects (question : string) (schema : Schema)
    (s : State Breaker) :
  0 <= max_retries self ->
  exec_calls (_generate_sql_with_retry self question schema s).2 = exec_calls s
  /\ slept (_generate_sql_with_retry self question schema s).2 = slept s
  /\ Z.of_nat (gen_calls s)
     <= Z.of_nat (gen_calls (_generate_sql_with_retry self question schema s).2)
     <= Z.of_nat (gen_calls s) + max_retries self + 1
  /\ forall e,
       (_generate_sql_with_retry self question schema s).1 = Raise e ->
       isinstance e [LLMError; SecurityViolationError; SQLParseError] = true
       /\ (((allow_request (deps self) (breaker s)).1 = false
            /\ gen_calls (_generate_sql_with_retry self question schema s).2
               = gen_calls s
            /\ exc_class e = LLMError
            /\ exc_message e
               = "SQL generation service is temporarily unavailable (circuit breaker open)")
           \/ (exists n prev fb e0,
                 generate (deps self) n question schema prev fb = Raise e0
                 /\ e = surfaced e0)
           \/ (exists sql e0,
                 Orchestrator.validate_or_raise (deps self) sql = Raise e0
                 /\ e = surfaced e0
                 /\ (isinstance e0 [SecurityViolationError; SQLParseError] = true ->
                     Z.of_nat
                       (gen_calls
                          (_generate_sql_with_retry self question schema s).2)
                     = Z.of_nat (gen_calls s) + max_retries self + 1))).
Proof.
  intros Hmr. unfold _generate_sql_with_retry.
  destruct (allow_request (deps self) (breaker s)) as [[] b]; cbn [negb fst].
  - destruct (generate_loop_effects question schema
                (Z.to_nat (max_retries self + 1)) 0 None None
                (with_breaker (fun _ => b) s))
      as (He & Hs & Hg & Hr); [lia | lia |].
    cbn [with_breaker exec_calls slept gen_calls] in He, Hs, Hg.
    split; [done|]. split; [done|]. split; [lia|].
    intros e Hres.
    destruct (Hr e Hres) as [(n & prev & fb & e0 & Hgen & ->)
                            |(sql & e0 & Hv & -> & Hall)].
    + split; [apply surfaced_known|]. right. left. by exists n, prev, fb, e0.
    + split; [apply surfaced_known|]. right. right. exists sql, e0.
      split; [done|]. split; [done|].
      intros Hc. rewrite (Hall Hc). cbn [with_breaker gen_calls]. lia.
  - cbn [fst snd with_breaker exec_calls slept gen_calls].
    split; [done|]. split; [done|]. split; [lia|].
    intros e [= <-]. split; [done|]. left. done.
Qed.

(** [_execute_with_resilience] under a configuration that retries
    [DatabaseError]: what it returns the executor returned, and what it
    raises reports the exhausted attempts. *)
Lemma execute_with_resilience_effects sql (s : State Breaker) :
  retriable_exceptions (_db_retry_config self) = [DatabaseError] ->
  1 <= max_attempts (_db_retry_config self) ->
  exists k,
    (S k <= Z.to_nat (max_attempts (_db_retry_config self)))%nat
    /\ gen_calls (_execute_with_resilience self sql s).2 = gen_calls s
    /\ slept (_execute_with_resilience self sql s).2
       = (slept s ++ delays (_db_retry_config self) k)%list
    /\ (exec_calls s <= exec_calls (_execute_with_resilience self sql s).2
        <= exec_calls s + S k)%nat
    /\ (forall r,
          (_execute_with_resilience self sql s).1 = Return r ->
          exists n,
            execute (deps self) n sql = Return r
            /\ (exec_calls s <= n)%nat
            /\ exec_calls (_execute_with_resilience self sql s).2 = S n)
    /\ (forall x,
          (_execute_with_resilience self sql s).1 = Raise x ->
          S k = Z.to_nat (max_attempts (_db_retry_config self))
          /\ exists e,
               isinstance e [DatabaseError] = true
               /\ x = raise_from
                        (pg_error DatabaseError
                           ("Database execution failed after "
                            ++ PyStr.of_Z (max_attempts (_db_retry_config self))
                            ++ " attempts")
                           [("last_error", DStr (exc_message e))])
                        (raise_from
                           (retry_exhausted_error
                              (max_attempts (_db_retry_config self)) e) e)).
Proof.
  intros Hretriable Hm.
  destruct (execute_loop_effects (_db_retry_config self) Hretriable sql
              (Z.to_nat (max_attempts (_db_retry_config self))) 0 None s)
    as (k & Hk & Hg & Hs & He & Hret & Hraise); [lia | lia |].
  change (Z.of_nat 0) with 0 in Hg, Hs, He, Hret, Hraise.
  exists k. unfold _execute_with_resilience, with_retry.
  destruct (wrapper_loop sleep (_db_retry_config self)
              (_execute_with_protection self sql)
              (Z.to_nat (max_attempts (_db_retry_config self))) 0 None s)
    as [[r|x] s1]; cbn [fst snd] in Hg, Hs, He, Hret, Hraise.
  - cbn [fst snd]. split; [lia|]. split; [done|]. split; [done|].
    split; [done|]. split; [|discriminate].
    intros ? [= <-]. by apply Hret.
  - destruct (Hraise x eq_refl) as (Hlast & e & Hi & ->).
    destruct e as [c m d0 k0 a0 l0 c0]. cbn.
    split; [lia|]. split; [done|]. split; [done|]. split; [done|].
    split; [discriminate|].
    intros ? [= <-]. split; [done|]. eexists (MkExc c m d0 k0 a0 l0 c0).
    split; [done|]. reflexivity.
Qed.

(** The state [execute_query] leaves is the one its body left. *)
Lemma execute_query_state request (s : State Breaker) :
  (execute_query self request s).2 = (execute_query_body self request s).2.
Proof.
  unfold execute_query.
  destruct (execute_query_body self request s) as [[r|e] s']; [done|].
  by destruct (isinstance e [PgMcpError]).
Qed.

(** The body of [execute_query] stops before the generation, after it, or
    after the execution of the generated SQL. *)
Lemma execute_query_body_stages request (s : State Breaker) :
  (execute_query_body self request s).2 = s
  \/ exists schema,
       (execute_query_body self request s).2
       = (_generate_sql_with_retry self (question request) schema s).2
       /\ (return_type request = SQL
           \/ (exists e,
                 (_generate_sql_with_retry self (question request) schema s).1
                 = Raise e)
           \/ exists e,
                (execute_query_body self request s).1 = Raise e)
     \/ exists s1 sql,
          _generate_sql_with_retry self (question request) schema s
          = (Return (sql, validation_ok, None), s1)
          /\ Orchestrator.validate_or_raise (deps self) sql = Return tt
          /\ return_type request = RESULT
          /\ (execute_query_body self request s).2
             = (_execute_with_resilience self sql s1).2.
Proof.
  unfold execute_query_body.
  destruct (Z.of_nat (String.length (question request))
            >? max_question_length self); [by left|].
  destruct (_resolve_database self (database request)) as [name|e]; [|by left].
  match goal with
  | |- context [match ?loaded with Return _ => _ | Raise _ => _ end] =>
      destruct loaded as [schema|e]; [|by left]
  end.
  right. exists schema.
  destruct (_generate_sql_with_retry self (question request) schema s)
    as [[[[sql v] tokens]|e] s1] eqn:Hgen.
  2:{ left. split; [done|]. right. left. by exists e. }
  destruct (generate_sql_with_retry_Return self _ _ _ _ _ _ _ Hgen)
    as (-> & -> & Hvalid).
  destruct (return_type request) eqn:Hmode.
  { left. split; [done|]. by left. }
  destruct (get_executor (deps self) name) as [[]|e].
  2:{ left. split; [done|]. right. right. by exists e. }
  right. exists s1, sql. split; [done|]. split; [done|]. split; [done|].
  destruct (_execute_with_resilience self sql s1) as [[[results total]|e] s2];
    [|done].
  by destruct (_ <? _).
Qed.

(** What [_resolve_database] returns is a key of [self.pools]. *)
Lemma pools_get_in_pools name :
  in_pools self name = true ->
  exists pool, pools_get (pools self) name = Some pool.
Proof.
  unfold in_pools, pool_names.
  induction (pools self) as [|[k v] rest IH]; [done|].
  cbn [map existsb fst pools_get]. unfold PyStr.eqb at 1 3.
  destruct (decide (k = name)) as [->|Hne].
  - rewrite !bool_decide_eq_true_2 by done. eauto.
  - rewrite !bool_decide_eq_false_2 by congruence. done.
Qed.

End Facts.

End OrchestratorMoreFacts.

Import Retry RetryFacts Orchestrator OrchestratorFacts OrchestratorMoreFacts.

(** X14.  The constructor of the orchestrator returns exactly when
    [max_retries >= 1], [backoff_factor >= 1] and
    [0 <= retry_delay <= 30], the bound that the database retry
    configuration, with [max_delay = 30], puts on the delay; otherwise it
    ends with the [ValueError] of [RetryConfig].  What it builds retries the
    execution on [DatabaseError] only, for [max_retries] attempts in all. *)
Theorem orchestrator_needs_valid_retry_settings {Breaker Schema Pool : Type}
    (deps : Collaborators Breaker Schema Pool) (pools : list (string * Pool))
    (mr : Z) (d b : Q) (mql mcs : Z) (ve : bool) :
  ((exists self, Orchestrator.init deps pools mr d b mql mcs ve = Return self)
   <-> 1 <= mr /\ (0 <= d)%Q /\ (d <= 30)%Q /\ (1 <= b)%Q)
  /\ (forall e, Orchestrator.init deps pools mr d b mql mcs ve = Raise e ->
        exc_class e = ValueError)
  /\ (forall self, Orchestrator.init deps pools mr d b mql mcs ve = Return self ->
        max_retries self = mr
        /\ max_attempts (_db_retry_config self) = mr
        /\ retriable_exceptions (_db_retry_config self) = [DatabaseError]
        /\ max_delay (_db_retry_config self) == 30
        /\ retriable_exceptions (_llm_retry_config self) = [LLMError]
        /\ max_delay (_llm_retry_config self) == 60)%Q.
Proof.
  split; [|split].
  - split.
    + intros [self (? & ? & ? & ?)%orchestrator_init_Return%proj1]. done.
    + intros (? & ? & ? & ?). eexists. apply orchestrator_init_Return. split; [|reflexivity].
      done.
  - assert (forall M r e, Retry.init mr d b M r = Raise e ->
              exc_class e = ValueError) as Hclass.
    { intros M r e. unfold Retry.init.
      repeat case_match; first [discriminate | by intros [= <-]]. }
    unfold Orchestrator.init. intros e.
    destruct (Retry.init mr d b 60 [LLMError]) eqn:Hllm.
    + destruct (Retry.init mr d b 30 [DatabaseError]) eqn:Hdb; [discriminate|].
      intros [= <-]. by eapply Hclass.
    + intros [= <-]. by eapply Hclass.
  - intros self [_ ->]%orchestrator_init_Return. done.
Qed.

(** X15.  What [_resolve_database] returns is registered: it is the name
    that was asked for, or the only registered one when none was, and
    [self.pools] has a pool under it; so the lookup of the pool that
    follows in [execute_query] cannot miss.  What it raises is a
    [DatabaseError]: for a name that is not registered, or for no name with
    no or with several databases registered. *)
Theorem resolved_database_has_a_pool {Breaker Schema Pool : Type}
    (self : QueryOrchestrator Breaker Schema Pool) (database : option string) :
  match _resolve_database self database with
  | Return name =>
      in_pools self name = true
      /\ (exists pool, pools_get (pools self) name = Some pool)
      /\ (database = Some name
          \/ (database = None /\ pool_names self = [name]))
  | Raise e =>
      exc_class e = DatabaseError
      /\ (forall name, database = Some name -> in_pools self name = false)
      /\ (database = None -> length (pools self) <> 1%nat)
  end.
Proof.
  unfold _resolve_database. destruct database as [name|].
  - destruct (in_pools self name) eqn:Hin; cbn [negb].
    + split; [done|]. split; [by apply pools_get_in_pools | by left].
    + split; [done|]. split; [by intros ? [= <-] | done].
  - destruct (pool_names self) as [|only [|second rest]] eqn:Hnames.
    + split; [done|]. split; [done|]. intros _.
      unfold pool_names in Hnames. by destruct (pools self).
    + assert (in_pools self only = true) as Hin.
      { unfold in_pools. rewrite Hnames. cbn. unfold PyStr.eqb.
        by rewrite bool_decide_eq_true_2. }
      split; [done|]. split; [by apply pools_get_in_pools | by right].
    + split; [done|]. split; [done|]. intros _.
      unfold pool_names in Hnames. by destruct (pools self) as [|? [|? ?]].
Qed.

(** X16.  With [max_retries >= 0], [_generate_sql_with_retry] calls the
    generator at most [max_retries + 1] times and neither executes nor
    sleeps.  Every error it raises is an [LLMError], a
    [SecurityViolationError] or a [SQLParseError]: the refusal of the
    circuit breaker, before any call of the generator; or what the generator
    or the validator raised, as it is when of one of these classes and
    wrapped in an [LLMError] otherwise.  A rejection by the validator is
    raised only after all [max_retries + 1] generations were used; the
    [LLMError] placed after the loop is never raised. *)
Theorem generation_raises_only_documented_errors {Breaker Schema Pool : Type}
    (self : QueryOrchestrator Breaker Schema Pool)
    (question : string) (schema : Schema) (s : State Breaker) :
  0 <= max_retries self ->
  exec_calls (_generate_sql_with_retry self question schema s).2 = exec_calls s
  /\ slept (_generate_sql_with_retry self question schema s).2 = slept s
  /\ Z.of_nat (gen_calls s)
     <= Z.of_nat (gen_calls (_generate_sql_with_retry self question schema s).2)
     <= Z.of_nat (gen_calls s) + max_retries self + 1
  /\ forall e,
       (_generate_sql_with_retry self question schema s).1 = Raise e ->
       isinstance e [LLMError; SecurityViolationError; SQLParseError] = true
       /\ (((allow_request (deps self) (breaker s)).1 = false
            /\ gen_calls (_generate_sql_with_retry self question schema s).2
               = gen_calls s
            /\ exc_class e = LLMError
            /\ exc_message e
               = "SQL generation service is temporarily unavailable (circuit breaker open)")
           \/ (exists n prev fb e0,
                 generate (deps self) n question schema prev fb = Raise e0
                 /\ e = surfaced e0)
           \/ (exists sql e0,
                 Orchestrator.validate_or_raise (deps self) sql = Raise e0
                 /\ e = surfaced e0
                 /\ (isinstance e0 [SecurityViolationError; SQLParseError] = true ->
                     Z.of_nat
                       (gen_calls
                          (_generate_sql_with_retry self question schema s).2)
                     = Z.of_nat (gen_calls s) + max_retries self + 1))).
Proof. apply generate_sql_with_retry_effects. Qed.

(** The orchestrator of the scenarios, whose generator answers at once:
    one call of the generator, and nothing executed. *)
Lemma one_generation_witness :
  exec_calls
    (_generate_sql_with_retry
       (Examples.orchestrator ["db"] (fun _ => Examples.one_row) (Return 90))
       "How many users?" tt Examples.state0).2 = 0%nat
  /\ slept
       (_generate_sql_with_retry
          (Examples.orchestrator ["db"] (fun _ => Examples.one_row) (Return 90))
          "How many users?" tt Examples.state0).2 = [].
Proof.
  pose proof (generation_raises_only_documented_errors
                (Examples.orchestrator ["db"] (fun _ => Examples.one_row)
                   (Return 90))
                "How many users?" tt Examples.state0
                ltac:(simpl; lia)) as (H1 & H2 & _).
  exact (conj H1 H2).
Defined.

(** X17.  In an orchestrator the constructor built,
    [_execute_with_resilience] runs the executor at most [max_retries]
    times, one time fewer than the generator may be called, and sleeps
    [calculate_delay(0), calculate_delay(1), ...] between the attempts.  What
    it returns is what the last call of the executor returned.  Whatever the
    executor raised, what it raises is the [DatabaseError]
    "Database execution failed after [max_retries] attempts", raised from
    the [RetryExhaustedError], after [max_retries - 1] sleeps. *)
Theorem execution_fails_only_exhausted {Breaker Schema Pool : Type}
    (deps : Collaborators Breaker Schema Pool) (pools : list (string * Pool))
    (mr : Z) (d b : Q) (mql mcs : Z) (ve : bool)
    (self : QueryOrchestrator Breaker Schema Pool)
    (sql : string) (s : State Breaker) :
  Orchestrator.init deps pools mr d b mql mcs ve = Return self ->
  gen_calls (_execute_with_resilience self sql s).2 = gen_calls s
  /\ Z.of_nat (exec_calls s)
     <= Z.of_nat (exec_calls (_execute_with_resilience self sql s).2)
     <= Z.of_nat (exec_calls s) + mr
  /\ (exists k,
        Z.of_nat k < mr
        /\ slept (_execute_with_resilience self sql s).2
           = (slept s ++ delays (_db_retry_config self) k)%list)
  /\ match (_execute_with_resilience self sql s).1 with
     | Return r =>
         exists n,
           execute deps n sql = Return r
           /\ exec_calls (_execute_with_resilience self sql s).2 = S n
     | Raise x =>
         exc_class x = DatabaseError
         /\ exc_message x
            = "Database execution failed after " ++ PyStr.of_Z mr ++ " attempts"
         /\ (exists e,
               isinstance e [DatabaseError] = true
               /\ exc_details x = [("last_error", DStr (exc_message e))]
               /\ exc_cause x
                  = Some (raise_from (retry_exhausted_error mr e) e))
         /\ slept (_execute_with_resilience self sql s).2
            = (slept s ++ delays (_db_retry_config self) (Z.to_nat mr - 1))%list
     end.
Proof.
  intros [(Hm & Hd & Hb & HM) ->]%orchestrator_init_Return.
  set (self := {| max_retries := mr |}).
  destruct (execute_with_resilience_effects self sql s eq_refl Hm)
    as (k & Hk & Hg & Hs & He & Hret & Hraise).
  change (max_attempts (_db_retry_config self)) with mr in Hk, Hraise.
  split; [done|]. split; [lia|]. split; [exists k; split; [lia | done]|].
  destruct (_execute_with_resilience self sql s).1 as [r|x].
  - destruct (Hret r eq_refl) as (n & ? & _ & ?). by exists n.
  - destruct (Hraise x eq_refl) as (Hlast & e & Hi & ->).
    split; [done|]. split; [done|]. split.
    + exists e. done.
    + rewrite Hs. do 2 f_equal. lia.
Qed.

(** An executor that keeps failing: two attempts and one sleep. *)
Lemma failing_executor_witness :
  gen_calls
    (_execute_with_resilience
       (Examples.orchestrator ["db"] (fun _ => Raise Examples.db_error)
          (Return 90))
       Examples.sql_qualified Examples.state0).2 = 0%nat.
Proof.
  exact (proj1 (execution_fails_only_exhausted
                  (Examples.collaborators Examples.sql_qualified
                     (fun _ => Raise Examples.db_error) (Return 90))
                  [("db", tt)] 2 1 2 5000 70 true
                  (Examples.orchestrator ["db"]
                     (fun _ => Raise Examples.db_error) (Return 90))
                  Examples.sql_qualified Examples.state0 eq_refl)).
Defined.

(** X18.  Behind a circuit breaker that refuses every request, an
    orchestrator the constructor built still goes through all its
    [max_retries] attempts: the refusal is a [DatabaseError], which the retry
    configuration retries.  It never calls the executor, sleeps
    [max_retries - 1] times, and reports the exhausted attempts with the
    refusal as the last error. *)
Theorem open_circuit_uses_all_attempts {Breaker Schema Pool : Type}
    (deps : Collaborators Breaker Schema Pool) (pools : list (string * Pool))
    (mr : Z) (d b : Q) (mql mcs : Z) (ve : bool)
    (self : QueryOrchestrator Breaker Schema Pool)
    (sql : string) (s : State Breaker) :
  Orchestrator.init deps pools mr d b mql mcs ve = Return self ->
  (forall breaker, (allow_request deps breaker).1 = false) ->
  exec_calls (_execute_with_resilience self sql s).2 = exec_calls s
  /\ slept (_execute_with_resilience self sql s).2
     = (slept s ++ delays (_db_retry_config self) (Z.to_nat mr - 1))%list
  /\ exists x,
       (_execute_with_resilience self sql s).1 = Raise x
       /\ exc_class x = DatabaseError
       /\ exc_message x
          = "Database execution failed after " ++ PyStr.of_Z mr ++ " attempts"
       /\ exc_details x
          = [("last_error",
              DStr "Database service temporarily unavailable (circuit breaker open)")].
Proof.
  intros [(Hm & Hd & Hb & HM) ->]%orchestrator_init_Return Hopen.
  set (self := {| max_retries := mr |}).
  destruct (refused_loop_effects self (_db_retry_config self) eq_refl sql
              (Z.to_nat mr) Hopen 0 None s)
    as (Hg & He & Hs & e & Hr & Hc & Hmsg); [lia | simpl; lia |].
  change (Z.of_nat 0) with 0 in Hg, He, Hs, Hr.
  unfold _execute_with_resilience, with_retry.
  change (max_attempts (_db_retry_config self)) with mr in *.
  destruct (wrapper_loop sleep (_db_retry_config self)
              (_execute_with_protection self sql) (Z.to_nat mr) 0 None s)
    as [r s1]; cbn [fst snd] in Hg, He, Hs, Hr. subst r.
  destruct e as [c m d0 k0 a0 l0 c0]. cbn in Hc, Hmsg. cbn.
  split; [done|]. split; [done|].
  eexists. split; [reflexivity|]. cbn. by rewrite Hmsg.
Qed.

(** With [max_retries = 2]: no execution and one sleep. *)
Lemma refused_twice_witness :
  exec_calls
    (_execute_with_resilience
       (Examples.orchestrator_refused ["db"] (fun _ => Examples.one_row)
          (Return 90))
       Examples.sql_qualified Examples.state0).2 = 0%nat.
Proof.
  exact (proj1 (open_circuit_uses_all_attempts
                  (deps (Examples.orchestrator_refused ["db"]
                           (fun _ => Examples.one_row) (Return 90)))
                  [("db", tt)] 2 1 2 5000 70 true
                  (Examples.orchestrator_refused ["db"]
                     (fun _ => Examples.one_row) (Return 90))
                  Examples.sql_qualified Examples.state0 eq_refl
                  (fun _ => eq_refl))).
Defined.

(** X19.  One request to an orchestrator the constructor built costs at
    most [max_retries + 1] calls of the generator and [max_retries] calls of
    the executor, and sleeps fewer than [max_retries] times, each time for
    the next delay of the database retry configuration, between 0 and 30
    seconds. *)
Theorem request_work_is_bounded {Breaker Schema Pool : Type}
    (deps : Collaborators Breaker Schema Pool) (pools : list (string * Pool))
    (mr : Z) (d b : Q) (mql mcs : Z) (ve : bool)
    (self : QueryOrchestrator Breaker Schema Pool)
    (request : QueryRequest) (s : State Breaker) :
  Orchestrator.init deps pools mr d b mql mcs ve = Return self ->
  Z.of_nat (gen_calls s)
  <= Z.of_nat (gen_calls (execute_query self request s).2)
  <= Z.of_nat (gen_calls s) + mr + 1
  /\ Z.of_nat (exec_calls s)
     <= Z.of_nat (exec_calls (execute_query self request s).2)
     <= Z.of_nat (exec_calls s) + mr
  /\ exists k,
       Z.of_nat k < mr
       /\ slept (execute_query self request s).2
          = (slept s ++ delays (_db_retry_config self) k)%list
       /\ Forall (fun delay => 0 <= delay <= 30)%Q
            (delays (_db_retry_config self) k).
Proof.
  intros [(Hm & Hd & Hb & HM) ->]%orchestrator_init_Return.
  set (self := {| max_retries := mr |}).
  assert (forall k, Forall (fun delay => 0 <= delay <= 30)%Q
                      (delays (_db_retry_config self) k)) as Hdelays
    by (intros k; by apply (delays_bounded (_db_retry_config self) k)).
  rewrite execute_query_state.
  destruct (execute_query_body_stages self request s)
    as [->|(schema & [[-> _]|(s1 & sql & Hgen & _ & _ & ->)])].
  - split; [lia|]. split; [lia|]. exists 0%nat.
    split; [lia|]. split; [by rewrite app_nil_r | done].
  - destruct (generate_sql_with_retry_effects self (question request) schema s)
      as (He & Hs & Hg & _); [simpl; lia|].
    change (max_retries self) with mr in Hg.
    split; [lia|]. split; [lia|]. exists 0%nat.
    split; [lia|]. split; [by rewrite app_nil_r | done].
  - destruct (generate_sql_with_retry_effects self (question request) schema s)
      as (He & Hs & Hg & _); [simpl; lia|].
    change (max_retries self) with mr in Hg.
    rewrite Hgen in He, Hs, Hg. cbn [snd] in He, Hs, Hg.
    destruct (execute_with_resilience_effects self sql s1 eq_refl Hm)
      as (k & Hk & Hg' & Hs' & He' & _).
    change (max_attempts (_db_retry_config self)) with mr in Hk.
    split; [lia|]. split; [lia|]. exists k.
    split; [lia|]. split; [congruence | done].
Qed.

(** A request in RESULT mode that succeeds at once: one generation and one
    execution. *)
Lemma one_request_witness :
  Z.of_nat (gen_calls Examples.state0)
  <= Z.of_nat
       (gen_calls
          (execute_query
             (Examples.orchestrator ["db"] (fun _ => Examples.one_row)
                (Return 90))
             (Examples.request None RESULT) Examples.state0).2)
  <= Z.of_nat (gen_calls Examples.state0) + 2 + 1.
Proof.
  exact (proj1 (request_work_is_bounded
                  (Examples.collaborators Examples.sql_qualified
                     (fun _ => Examples.one_row) (Return 90))
                  [("db", tt)] 2 1 2 5000 70 true
                  (Examples.orchestrator ["db"] (fun _ => Examples.one_row)
                     (Return 90))
                  (Examples.request None RESULT) Examples.state0 eq_refl)).
Defined.

(** X20.  Every response of [execute_query] is well formed: it is a
    success exactly when it carries no error; a success carries SQL that the
    validator accepted, and in RESULT mode also the data; data come only
    with a success in RESULT mode, their [row_count] is the number of rows
    returned (not the total the executor counted), their columns are the
    keys of the first row, and the confidence has reached the threshold. *)
Theorem responses_are_well_formed {Breaker Schema Pool : Type}
    (self : QueryOrchestrator Breaker Schema Pool)
    (request : QueryRequest) (s : State Breaker) :
  (success (execute_query self request s).1 = true
   <-> error (execute_query self request s).1 = None)
  /\ (success (execute_query self request s).1 = true ->
      (exists sql,
         generated_sql (execute_query self request s).1 = Some sql
         /\ Orchestrator.validate_or_raise (deps self) sql = Return tt)
      /\ validation (execute_query self request s).1 = Some validation_ok
      /\ (return_type request = RESULT ->
          data (execute_query self request s).1 <> None))
  /\ (forall result,
        data (execute_query self request s).1 = Some result ->
        success (execute_query self request s).1 = true
        /\ return_type request = RESULT
        /\ row_count result = Z.of_nat (length (rows result))
        /\ columns result = match rows result with
                            | first :: _ => map fst first
                            | [] => []
                            end
        /\ min_confidence_score self
           <= confidence (execute_query self request s).1).
Proof.
  destruct (execute_query_body self request s) as [[r|e] s'] eqn:Hbody.
  - assert ((execute_query self request s).1 = r) as ->
      by (unfold execute_query; by rewrite Hbody).
    apply execute_query_body_Return in Hbody
      as [[_ ->]|(sql & Hvalid & [[Hmode ->]|(Hmode & results & total & H)])].
    + split; [done|]. split; done.
    + split; [done|]. split; [|done]. intros _.
      split; [by exists sql|]. split; [done | congruence].
    + destruct H as [[Hlow ->]|[Hok ->]].
      * split; [done|]. split; done.
      * split; [done|]. split.
        -- intros _. split; [by exists sql|]. split; done.
        -- intros result [= <-]. cbn. done.
  - destruct (execute_query_handlers self request s s' e Hbody) as (detail & ->).
    split; [done|]. split; done.
Qed.

(** X21.  The executor is reached only in RESULT mode and only with SQL
    that [_generate_sql_with_retry] returned and the validator accepted: in
    SQL mode nothing is executed and nothing is slept, and whenever the
    executions or the sleeps of a request differ from those before it, they
    are those of [_execute_with_resilience] on that SQL. *)
Theorem only_validated_sql_is_executed {Breaker Schema Pool : Type}
    (self : QueryOrchestrator Breaker Schema Pool)
    (request : QueryRequest) (s : State Breaker) :
  (return_type request = SQL ->
   exec_calls (execute_query self request s).2 = exec_calls s
   /\ slept (execute_query self request s).2 = slept s)
  /\ (exec_calls (execute_query self request s).2 <> exec_calls s
      \/ slept (execute_query self request s).2 <> slept s ->
      exists schema s1 sql,
        _generate_sql_with_retry self (question request) schema s
        = (Return (sql, validation_ok, None), s1)
        /\ Orchestrator.validate_or_raise (deps self) sql = Return tt
        /\ return_type request = RESULT
        /\ (execute_query self request s).2
           = (_execute_with_resilience self sql s1).2).
Proof.
  rewrite execute_query_state.
  destruct (execute_query_body_stages self request s)
    as [->|(schema & [[-> _]|(s1 & sql & Hgen & Hvalid & Hmode & ->)])].
  - split; [done|]. intros [?|?]; done.
  - destruct (generate_sql_with_retry_pure self (question request) schema s)
      as [He Hs].
    split; [done|]. intros [?|?]; done.
  - split; [congruence|]. intros _. by exists schema, s1, sql.
Qed.
